(** * The Edison: citation processing and page-layout computation

    A shallow embedding of [ai/format_optimizer.py] (class [FormatOptimizer])
    and [ai/citation_processor.py] (class [CitationProcessor]), both found in
    [src/utils/python/ai-formatter.py], together with the properties the
    specification states about them.

    Conventions of the embedding:
    - a Python [str] is a [string] whose characters are the code points
      0..255;
    - a Python [int] is a [Z]; a Python [float] is an exact rational [Q]
      (rounding of binary floating point is not modelled);
    - a Python [dict] that is only looked up by key is a [gmap string _]; a
      [dict] whose iteration order matters is an association list in
      insertion order;
    - a Python exception is a value of [pyerr], threaded through the error
      monad [result]. *)

From Stdlib Require Import ZArith QArith Qround Qfield Ascii String List Bool Lia.
From stdpp Require Import base option list strings gmap.

Local Open Scope Z_scope.

(* ================================================================== *)
(** ** Python exceptions and the error monad *)
(* ================================================================== *)

Inductive pyerr : Type :=
| KeyError (key : string)
| IndexError
| TypeError
| UnboundLocalError (name : string)
| ZeroDivisionError.

Inductive result (A : Type) : Type :=
| Ok (a : A)
| Raise (e : pyerr).
Arguments Ok {A} a.
Arguments Raise {A} e.

#[global] Instance result_ret : MRet result := fun A a => Ok a.

#[global] Instance result_bind : MBind result := fun A B k r =>
  match r with
  | Ok a => k a
  | Raise e => Raise e
  end.

(* ================================================================== *)
(** ** Python strings *)
(* ================================================================== *)

Module Py.

Definition code (a : ascii) : nat := nat_of_ascii a.

Definition chr (n : nat) : ascii := ascii_of_nat n.

Definition newline : ascii := chr 10.
Definition dquote : ascii := chr 34.

(** [nl] is the one-character string written '\n' in Python. *)
Definition nl : string := String newline EmptyString.

Definition in_range (lo hi : nat) (a : ascii) : bool :=
  (lo <=? code a)%nat && (code a <=? hi)%nat.

(** [str.isspace] on one character, for code points below 256: the
    characters TAB..CR, FS..US, SPACE, NEL and NBSP. *)
Definition isspace (a : ascii) : bool :=
  in_range 9 13 a || in_range 28 32 a
  || (code a =? 133)%nat || (code a =? 160)%nat.

(** Decimal digits ([\d], [str.isdigit]) for code points below 256. *)
Definition isdigit (a : ascii) : bool := in_range 48 57 a.

(** [len(s)] *)
Definition len (s : string) : Z := Z.of_nat (String.length s).

(** Truth value of a [str]: the empty string is false. *)
Definition truthy (s : string) : bool :=
  match s with
  | EmptyString => false
  | String _ _ => true
  end.

Fixpoint mem (a : ascii) (chars : string) : bool :=
  match chars with
  | EmptyString => false
  | String b chars' => Ascii.eqb a b || mem a chars'
  end.

Fixpoint rev_onto (s acc : string) : string :=
  match s with
  | EmptyString => acc
  | String a s' => rev_onto s' (String a acc)
  end.

Definition rev (s : string) : string := rev_onto s EmptyString.

Fixpoint lstrip_by (drop : ascii -> bool) (s : string) : string :=
  match s with
  | EmptyString => EmptyString
  | String a s' => if drop a then lstrip_by drop s' else s
  end.

Definition strip_by (drop : ascii -> bool) (s : string) : string :=
  rev (lstrip_by drop (rev (lstrip_by drop s))).

(** [s.strip()] *)
Definition strip (s : string) : string := strip_by isspace s.

(** [s.strip(chars)] *)
Definition strip_chars (chars s : string) : string :=
  strip_by (fun a => mem a chars) s.

(** [s[i:j]] for [0 <= i], [0 <= j]. *)
Definition slice (s : string) (i j : nat) : string :=
  String.substring i (j - i) s.

(** [sep.join(parts)] *)
Fixpoint join (sep : string) (parts : list string) : string :=
  match parts with
  | [] => EmptyString
  | [p] => p
  | p :: ps => p +:+ sep +:+ join sep ps
  end.

(** [s.split()]: the maximal runs of non-whitespace characters.
    [cur] holds the characters of the run being read, in reverse. *)
Fixpoint split_ws_from (s : string) (cur : string) : list string :=
  match s with
  | EmptyString =>
      match cur with
      | EmptyString => []
      | _ => [rev cur]
      end
  | String a s' =>
      if isspace a then
        match cur with
        | EmptyString => split_ws_from s' EmptyString
        | _ => rev cur :: split_ws_from s' EmptyString
        end
      else split_ws_from s' (String a cur)
  end.

Definition split_ws (s : string) : list string := split_ws_from s EmptyString.

(** [s.startswith(p)], returning the rest of [s] after [p]. *)
Fixpoint drop_prefix (p s : string) : option string :=
  match p, s with
  | EmptyString, _ => Some s
  | String a p', String b s' =>
      if Ascii.eqb a b then drop_prefix p' s' else None
  | String _ _, EmptyString => None
  end.

(** [s.split(sep)] for a non-empty separator [sep]. [skip] counts the
    characters of a separator just found that are still to be passed
    over; [cur] holds the current piece, in reverse. *)
Fixpoint split_sep_from (sep s : string) (skip : nat) (cur : string)
  : list string :=
  match s with
  | EmptyString => [rev cur]
  | String a s' =>
      match skip with
      | S n => split_sep_from sep s' n cur
      | O =>
          match drop_prefix sep s with
          | Some _ =>
              rev cur
                :: split_sep_from sep s' (String.length sep - 1) EmptyString
          | None => split_sep_from sep s' O (String a cur)
          end
      end
  end.

Definition split_sep (sep s : string) : list string :=
  split_sep_from sep s O EmptyString.

(** [xs[-n:]] for [n > 0]: the last [n] elements (all of them when the
    list is shorter). *)
Definition last_n {A : Type} (n : nat) (xs : list A) : list A :=
  skipn (List.length xs - n) xs.

End Py.

(* ================================================================== *)
(** ** Regular expressions: the fragment of Python's [re] the code uses *)
(* ================================================================== *)

Module Re.

(** One item of a character set. *)
Inductive item : Type :=
| Lit (a : ascii)            (* a literal character *)
| Range (lo hi : ascii)      (* lo-hi *)
| Space                      (* \s *)
| Digit                      (* \d *)
| Any.                       (* . under re.DOTALL *)

Inductive regex : Type :=
| Eps                                      (* the empty pattern *)
| Set_ (negated : bool) (items : list item) (* [...] and [^...] *)
| Cat (r1 r2 : regex)                      (* r1 r2 *)
| Alt (r1 r2 : regex)                      (* r1|r2 *)
| Star (greedy : bool) (r : regex)         (* r* and r*? *)
| Group (n : nat) (r : regex)              (* (r), the n-th group, from 0 *)
| Bol                                      (* ^ *)
| Eol                                      (* $ *)
| Ahead (r : regex)                        (* (?=r) *)
| NotBehind (items : list item).           (* (?<![...]) of one character *)

(** Derived forms. *)
Definition Chr (a : ascii) : regex := Set_ false [Lit a].
Definition Cls (i : item) : regex := Set_ false [i].
Definition Plus (r : regex) : regex := Cat r (Star true r).
Definition Opt (r : regex) : regex := Alt r Eps.

Fixpoint Str (s : string) : regex :=
  match s with
  | EmptyString => Eps
  | String a s' => Cat (Chr a) (Str s')
  end.

Fixpoint Cats (rs : list regex) : regex :=
  match rs with
  | [] => Eps
  | [r] => r
  | r :: rs' => Cat r (Cats rs')
  end.

Definition item_matches (a : ascii) (i : item) : bool :=
  match i with
  | Lit b => Ascii.eqb a b
  | Range lo hi => Py.in_range (Py.code lo) (Py.code hi) a
  | Space => Py.isspace a
  | Digit => Py.isdigit a
  | Any => true
  end.

Definition set_matches (negated : bool) (items : list item) (a : ascii)
  : bool :=
  xorb negated (existsb (item_matches a) items).

(** A position in the subject: the offset, the character just before it
    and the characters from it on. *)
Record cursor : Type := Cursor {
  pos : nat;
  before : option ascii;
  rest : string
}.

Definition start_of (s : string) : cursor := Cursor 0 None s.

Definition advance (c : cursor) : option (ascii * cursor) :=
  match rest c with
  | EmptyString => None
  | String a s' => Some (a, Cursor (S (pos c)) (Some a) s')
  end.

(** The spans of the capture groups, by group index. *)
Definition captures : Type := list (option (nat * nat)).

Definition outcome : Type := option (cursor * captures).

(** Backtracking matcher in continuation-passing style: [run r c g k]
    matches [r] at [c] and hands the cursor and captures reached to [k];
    when [k] fails the next alternative of [r] is tried, in the order of
    Python's engine (left alternative first, greedy repetition longest
    first, lazy repetition shortest first). An iteration of a repetition
    must consume at least one character. *)
Fixpoint run (r : regex) (c : cursor) (g : captures)
    (k : cursor -> captures -> outcome) {struct r} : outcome :=
  match r with
  | Eps => k c g
  | Set_ negated items =>
      match advance c with
      | Some (a, c') => if set_matches negated items a then k c' g else None
      | None => None
      end
  | Cat r1 r2 => run r1 c g (fun c' g' => run r2 c' g' k)
  | Alt r1 r2 =>
      match run r1 c g k with
      | Some o => Some o
      | None => run r2 c g k
      end
  | Star greedy r1 =>
      (fix loop (fuel : nat) (c : cursor) (g : captures) {struct fuel}
         : outcome :=
         match fuel with
         | O => k c g
         | S fuel' =>
             let again :=
               run r1 c g (fun c' g' =>
                 if (pos c <? pos c')%nat then loop fuel' c' g' else None) in
             if greedy then
               match again with
               | Some o => Some o
               | None => k c g
               end
             else
               match k c g with
               | Some o => Some o
               | None => again
               end
         end) (S (String.length (rest c))) c g
  | Group n r1 =>
      run r1 c g (fun c' g' => k c' (<[n := Some (pos c, pos c')]> g'))
  | Bol => if (pos c =? 0)%nat then k c g else None
  | Eol =>
      match rest c with
      | EmptyString => k c g
      | String a EmptyString =>
          if Ascii.eqb a Py.newline then k c g else None
      | _ => None
      end
  | Ahead r1 =>
      match run r1 c g (fun c' g' => Some (c', g')) with
      | Some (_, g') => k c g'
      | None => None
      end
  | NotBehind items =>
      match before c with
      | Some a => if set_matches false items a then None else k c g
      | None => k c g
      end
  end.

(** A match object: the subject, the span of the whole match and the
    spans of the groups. *)
Record match_ : Type := Match {
  subject : string;
  m_start : nat;
  m_end : nat;
  spans : captures
}.

Definition span_text (s : string) (sp : option (nat * nat))
  : option string :=
  match sp with
  | Some (i, j) => Some (Py.slice s i j)
  | None => None
  end.

(** [m.group(0)] *)
Definition group0 (m : match_) : string :=
  Py.slice (subject m) (m_start m) (m_end m).

(** [m.groups()]: every group in the order of its opening parenthesis,
    [None] for a group that did not take part. *)
Definition groups (m : match_) : list (option string) :=
  map (span_text (subject m)) (spans m).

(** [m.group(n+1)] *)
Definition group (m : match_) (n : nat) : option string :=
  match spans m !! n with
  | Some sp => span_text (subject m) sp
  | None => None
  end.

(** The match of [r] starting exactly at [c], and the cursor at its end;
    [ngroups] is the number of groups of [r]. A match ending before
    [min_end] is refused (the engine's must-advance rule after an empty
    match). *)
Definition match_at (ngroups : nat) (r : regex) (s : string) (c : cursor)
    (min_end : nat) : option (match_ * cursor) :=
  match run r c (replicate ngroups None)
          (fun c' g' =>
             if (min_end <=? pos c')%nat then Some (c', g') else None) with
  | Some (c', g') => Some (Match s (pos c) (pos c') g', c')
  | None => None
  end.

(** The leftmost match starting at [c] or later. *)
Fixpoint find_from (fuel : nat) (ngroups : nat) (r : regex) (s : string)
    (c : cursor) (min_end : nat) : option (match_ * cursor) :=
  match match_at ngroups r s c min_end with
  | Some mc => Some mc
  | None =>
      match fuel, advance c with
      | S fuel', Some (_, c') => find_from fuel' ngroups r s c' 0
      | _, _ => None
      end
  end.

(** [re.search(r, s)] *)
Definition search (ngroups : nat) (r : regex) (s : string)
  : option match_ :=
  fst <$> find_from (String.length s) ngroups r s (start_of s) 0.

(** [re.match(r, s)] *)
Definition match_start (ngroups : nat) (r : regex) (s : string)
  : option match_ :=
  fst <$> match_at ngroups r s (start_of s) 0.

(** The successive non-overlapping matches from [c] on. After an empty
    match the next one must end further right. *)
Fixpoint iter_from (fuel : nat) (ngroups : nat) (r : regex) (s : string)
    (c : cursor) (min_end : nat) : list match_ :=
  match fuel with
  | O => []
  | S fuel' =>
      match find_from (String.length (rest c)) ngroups r s c min_end with
      | Some (m, c') =>
          m :: iter_from fuel' ngroups r s c'
                 (if (m_start m =? m_end m)%nat then S (m_end m) else 0%nat)
      | None => []
      end
  end.

(** [re.finditer(r, s)], as the list of its matches. There are at most
    two matches per end position. *)
Definition finditer (ngroups : nat) (r : regex) (s : string)
  : list match_ :=
  iter_from (2 * String.length s + 3) ngroups r s (start_of s) 0.

(** The pieces of [s] between the matches [ms], [last] being the end of
    the previous match. *)
Fixpoint pieces (s : string) (last : nat) (ms : list match_)
  : list string :=
  match ms with
  | [] => [Py.slice s last (String.length s)]
  | m :: ms' => Py.slice s last (m_start m) :: pieces s (m_end m) ms'
  end.

(** [re.split(r, s)] for a pattern [r] without groups. *)
Definition split (r : regex) (s : string) : list string :=
  pieces s 0 (finditer 0 r s).

(** *** Notions the properties of the matcher are stated with *)

(** A cursor of the subject [s]: the characters read and those left add up
    to [s]. *)
Definition cursor_of (s : string) (c : cursor) : Prop :=
  (pos c + String.length (rest c) = String.length s)%nat.

(** The repetition loop of [run], by itself. *)
Definition star_loop
    (step : cursor -> captures -> (cursor -> captures -> outcome) -> outcome)
    (greedy : bool) (k : cursor -> captures -> outcome)
  : nat -> cursor -> captures -> outcome :=
  fix loop (fuel : nat) (c : cursor) (g : captures) {struct fuel} : outcome :=
    match fuel with
    | O => k c g
    | S fuel' =>
        let again :=
          step c g (fun c' g' =>
            if (pos c <? pos c')%nat then loop fuel' c' g' else None) in
        if greedy then
          match again with
          | Some o => Some o
          | None => k c g
          end
        else
          match k c g with
          | Some o => Some o
          | None => again
          end
    end.

(** A match object of the subject [s] with [n] groups. *)
Definition match_of (s : string) (n : nat) (m : match_) : Prop :=
  subject m = s /\ (m_start m <= m_end m <= String.length s)%nat
  /\ List.length (spans m) = n.

End Re.

(* ================================================================== *)
(** ** class FormatOptimizer *)
(* ================================================================== *)

Module FormatOptimizer.

Local Open Scope Q_scope.

(** [int(x)] of a float: truncation towards zero. *)
Definition int_of (x : Q) : Z := Z.quot (Qnum x) (Zpos (Qden x)).

(** Standard page dimensions in points (1/72 inch). *)
Definition LETTER_WIDTH : Q := 612.
Definition LETTER_HEIGHT : Q := 792.

(** Conversion factors. *)
Definition INCH_TO_POINT : Q := 72.
Definition MM_TO_POINT : Q := 2.83465.
Definition POINT_TO_PIXEL : Q := 1.33333.

(** The dict [self.margins], whose keys are always the four sides. *)
Record margins_t : Type := Margins {
  top : Q;
  right : Q;
  bottom : Q;
  left : Q
}.

(** The attributes of a [FormatOptimizer] object. *)
Record t : Type := Make {
  page_width : Q;
  page_height : Q;
  margins : margins_t;
  content_width : Q;
  content_height : Q;
  default_font_size : Q;
  default_line_height : Q;
  chars_per_line : Z;
  lines_per_page : Z
}.

(** [_calculate_content_area]: the derived attributes are recomputed from
    the page size and the margins. *)
Definition _calculate_content_area (page_width page_height : Q)
    (margins : margins_t) : t :=
  let content_width := page_width - (left margins + right margins) in
  let content_height := page_height - (top margins + bottom margins) in
  let default_font_size := 12 in
  let default_line_height := default_font_size * 2 in
  let avg_char_width := default_font_size * 0.6 in
  let chars_per_line := int_of (content_width / avg_char_width) in
  let lines_per_page := int_of (content_height / default_line_height) in
  Make page_width page_height margins content_width content_height
       default_font_size default_line_height chars_per_line lines_per_page.

(** [__init__] *)
Definition init : t :=
  _calculate_content_area LETTER_WIDTH LETTER_HEIGHT (Margins 72 72 72 72).

(** [set_page_size]: an unknown unit is taken as points. *)
Definition set_page_size (self : t) (width height : Q) (unit : string) : t :=
  let '(width, height) :=
    if String.eqb unit "inch" then
      (width * INCH_TO_POINT, height * INCH_TO_POINT)
    else if String.eqb unit "mm" then
      (width * MM_TO_POINT, height * MM_TO_POINT)
    else if String.eqb unit "pixel" then
      (width / POINT_TO_PIXEL, height / POINT_TO_PIXEL)
    else (width, height) in
  _calculate_content_area width height (margins self).

(** The [convert] lambda of [set_margins]: the unit is looked up in a dict
    of conversions, only when the value is not [None]. *)
Definition convert (val : option Q) (unit : string) : result (option Q) :=
  match val with
  | None => Ok None
  | Some x =>
      if String.eqb unit "inch" then Ok (Some (x * INCH_TO_POINT))
      else if String.eqb unit "mm" then Ok (Some (x * MM_TO_POINT))
      else if String.eqb unit "pixel" then Ok (Some (x / POINT_TO_PIXEL))
      else if String.eqb unit "point" then Ok (Some x)
      else Raise (KeyError unit)
  end.

(** [set_margins]: a side given as [None] keeps its value. *)
Definition set_margins (self : t) (top_ right_ bottom_ left_ : option Q)
    (unit : string) : result t :=
  let m := margins self in
  t' ← convert top_ unit;
  let m := Margins (default (top m) t') (right m) (bottom m) (left m) in
  r' ← convert right_ unit;
  let m := Margins (top m) (default (right m) r') (bottom m) (left m) in
  b' ← convert bottom_ unit;
  let m := Margins (top m) (right m) (default (bottom m) b') (left m) in
  l' ← convert left_ unit;
  let m := Margins (top m) (right m) (bottom m) (default (left m) l') in
  Ok (_calculate_content_area (page_width self) (page_height self) m).

(** [solve(Eq(a0 + a1*x, b), x)]: the roots of a linear equation in [x]. *)
Definition solve_linear (a0 a1 b : Q) : list Q :=
  if Qeq_bool a1 0 then [] else [(b - a0) / a1].

(** [calculate_optimal_margins]: returns the updated object and the
    margins dict it returns (the object's own). *)
Definition calculate_optimal_margins (self : t) (target_line_length : Q)
  : result (t * margins_t) :=
  let avg_char_width := default_font_size self * 0.6 in
  let content_width_needed := target_line_length * avg_char_width in
  let margin_space := page_width self - content_width_needed in
  let left_right_margin := margin_space / 2 in
  match solve_linear (page_width self) (-2) content_width_needed !! 0%nat with
  | None => Raise IndexError
  | Some solution =>
      self' ← set_margins self None (Some solution) None (Some solution)
                "point";
      Ok (self', margins self')
  end.

(** The state of the loop of [calculate_line_breaks]. *)
Record wrap_state : Type := Wrap {
  lines : list string;
  current_line : list string;
  current_length : Z
}.

(** One iteration of [for word in words]. *)
Definition wrap_step (chars_per_line : Z) (st : wrap_state) (word : string)
  : wrap_state :=
  let sep := if (0 <? current_length st)%Z then 1%Z else 0%Z in
  if (chars_per_line <? current_length st + Py.len word + sep)%Z then
    Wrap (lines st ++ [Py.join " " (current_line st)]) [word] (Py.len word)
  else
    Wrap (lines st) (current_line st ++ [word])
         (current_length st + (Py.len word + sep))%Z.

(** The word loop and the final flush, for a given line length. *)
Definition wrap_words (chars_per_line : Z) (words : list string)
  : list string :=
  let st := fold_left (wrap_step chars_per_line) words (Wrap [] [] 0%Z) in
  match current_line st with
  | [] => lines st
  | _ => lines st ++ [Py.join " " (current_line st)]
  end.

(** [calculate_line_breaks]: [font_size = None] stands for the default
    font size. Dividing by a zero character width raises. *)
Definition calculate_line_breaks (self : t) (text : string)
    (font_size : option Q) : result (list string) :=
  let font_size := default (default_font_size self) font_size in
  let avg_char_width := font_size * 0.6 in
  if Qeq_bool avg_char_width 0 then Raise ZeroDivisionError
  else
    let chars_per_line := int_of (content_width self / avg_char_width) in
    Ok (wrap_words chars_per_line (Py.split_ws text)).

(** [calculate_pagination]: [int(np.ceil(line_count / lines_per_page))]. *)
Definition calculate_pagination (self : t) (line_count : Z) : result Z :=
  if (lines_per_page self =? 0)%Z then Raise ZeroDivisionError
  else Ok (Qceiling (inject_Z line_count / inject_Z (lines_per_page self))).

(** [range(1, n)] *)
Definition range1 (n : Z) : list Z :=
  map Z.of_nat (seq 1 (Z.to_nat (n - 1))).

(** An element of the list [optimize_heading_placement] returns. *)
Record placement : Type := Placement {
  position : Z;
  page : Z
}.

(** The loop [for break_pos in page_breaks] with its [break]. *)
Fixpoint place (lines_per_page : Z) (page_breaks : list Z)
    (heading_pos page_num : Z) : placement :=
  match page_breaks with
  | [] => Placement heading_pos page_num
  | break_pos :: page_breaks' =>
      if ((0 <? heading_pos - break_pos) && (heading_pos - break_pos <? 3))%Z
      then
        let heading_pos := (break_pos - 1)%Z in
        Placement heading_pos (heading_pos / lines_per_page + 1)%Z
      else place lines_per_page page_breaks' heading_pos page_num
  end.

Definition page_breaks_of (lines_per_page page_count : Z) : list Z :=
  map (fun i => (i * lines_per_page)%Z) (range1 page_count).

(** [optimize_heading_placement] *)
Definition optimize_heading_placement (self : t)
    (headings_positions : list Z) (text_length : Z)
  : result (list placement) :=
  page_count ← calculate_pagination self text_length;
  let page_breaks := page_breaks_of (lines_per_page self) page_count in
  Ok (map (fun heading_pos =>
             let page_num := (heading_pos / lines_per_page self + 1)%Z in
             place (lines_per_page self) page_breaks heading_pos page_num)
          headings_positions).

(** *** Notions the properties are stated with *)

(** The margin [calculate_optimal_margins] stores: the root of
    [page_width - 2*x = target_line_length * (default_font_size * 0.6)]
    as [solve_linear] writes it. *)
Definition solved_margin (self : t) (target_line_length : Q) : Q :=
  (target_line_length * (default_font_size self * 0.6) - page_width self)
  / -2.

(** The object after [set_margins(top=0, bottom=0)] on a new one: a page
    of 33 lines, so that the first page break is at line 33. *)
Definition full_height_page : t :=
  _calculate_content_area LETTER_WIDTH LETTER_HEIGHT (Margins 0 72 0 72).

(** A heading at line [h] is stranded by the page break at line [b]: it
    lies one or two lines after it. *)
Definition stranded (h b : Z) : Prop := (0 < h - b < 3)%Z.

(** The end of [calculate_line_breaks]: the last line is added when it is
    not empty. *)
Definition wrap_finish (st : wrap_state) : list string :=
  match current_line st with
  | [] => lines st
  | _ => lines st ++ [Py.join " " (current_line st)]
  end.

(** What the counter [current_length] holds during the loop, the words
    being non-empty. *)
Definition wrap_inv (st : wrap_state) : Prop :=
  Forall (fun w => w <> EmptyString) (current_line st)
  /\ current_length st = Py.len (Py.join " " (current_line st)).



(** The units [set_margins] converts. *)
Definition known_unit (unit : string) : Prop :=
  unit = "inch" \/ unit = "mm" \/ unit = "pixel" \/ unit = "point".

(** A string without a whitespace character. *)
Fixpoint no_space (s : string) : bool :=
  match s with
  | EmptyString => true
  | String a s' => negb (Py.isspace a) && no_space s'
  end.


(** A word as [str.split()] returns them: not empty, no whitespace. *)
Definition is_word (w : string) : Prop :=
  w <> EmptyString /\ no_space w = true.

(** The line length [calculate_line_breaks] works with:
    [int(self.content_width / (font_size * 0.6))]. *)
Definition line_length (self : t) (font_size : option Q) : Z :=
  int_of (content_width self
          / (default (default_font_size self) font_size * 0.6)).

(** A line that respects the limit, or is one word of [words]. *)
Definition line_fits (chars_per_line : Z) (words : list string)
    (line : string) : Prop :=
  (Py.len line <= chars_per_line)%Z \/ In line words.

(** What the loop of [calculate_line_breaks] keeps: the lines flushed so
    far fit or are single words, and so does the current line. *)
Definition wrap_bounded (chars_per_line : Z) (words : list string)
    (st : wrap_state) : Prop :=
  wrap_inv st
  /\ Forall (line_fits chars_per_line words) (lines st)
  /\ line_fits chars_per_line words (Py.join " " (current_line st)).

End FormatOptimizer.

(* ================================================================== *)
(** ** class CitationProcessor *)
(* ================================================================== *)

Module CitationProcessor.

Import Re.

(** *** The patterns *)

Definition upper : regex := Cls (Range "A" "Z").       (* [A-Z] *)
Definition lower : regex := Cls (Range "a" "z").       (* [a-z] *)
Definition spaces : regex := Plus (Cls Space).         (* \s+ *)
Definition digits : regex := Plus (Cls Digit).         (* \d+ *)
Definition year4 : regex :=                            (* \d{4} *)
  Cats [Cls Digit; Cls Digit; Cls Digit; Cls Digit].

(** [[A-Z][a-z]+] *)
Definition name : regex := Cat upper (Plus lower).

(** [[A-Z][a-z]+(?:[-\s][A-Z][a-z]+)*] *)
Definition names : regex :=
  Cat name (Star true (Cat (Set_ false [Lit "-"; Space]) name)).

(** [(?:\s+and\s+[A-Z][a-z]+)?] *)
Definition and_name : regex := Opt (Cats [spaces; Str "and"; spaces; name]).

(** [(?:\s+et\s+al\.?)?] *)
Definition et_al : regex :=
  Opt (Cats [spaces; Str "et"; spaces; Str "al"; Opt (Chr ".")]).

(** [(?:-\d+)?] *)
Definition range_end : regex := Opt (Cat (Chr "-") digits).

(** The authors part, which five of the six patterns of the catalog start
    with (after an opening parenthesis or not): a group holding [names],
    then [and_name], then [et_al]. Below, AUTHORS stands for its text. *)
Definition authors (n : nat) : regex := Cats [Group n names; and_name; et_al].

(** ['mla']['in_text']: [\(] AUTHORS [\s+(\d+)(?:-\d+)?\)] *)
Definition mla_in_text : regex :=
  Cats [Chr "("; authors 0; spaces; Group 1 digits; range_end; Chr ")"].

(** ['mla']['parenthetical']: the same text a second time,
    [\(] AUTHORS [\s+(\d+)(?:-\d+)?\)] *)
Definition mla_parenthetical : regex :=
  Cats [Chr "("; authors 0; spaces; Group 1 digits; range_end; Chr ")"].

(** [(?:,\s+p\.?\s+\d+(?:-\d+)?)?] *)
Definition apa_page : regex :=
  Opt (Cats [Chr ","; spaces; Chr "p"; Opt (Chr "."); spaces; digits;
             range_end]).

(** ['apa']['in_text']:
    AUTHORS [\s+\((\d{4})(?:,\s+p\.?\s+\d+(?:-\d+)?)?\)] *)
Definition apa_in_text : regex :=
  Cats [authors 0; spaces; Chr "("; Group 1 year4; apa_page; Chr ")"].

(** ['apa']['parenthetical']:
    [\(] AUTHORS [,\s+(\d{4})(?:,\s+p\.?\s+\d+(?:-\d+)?)?\)] *)
Definition apa_parenthetical : regex :=
  Cats [Chr "("; authors 0; Chr ","; spaces; Group 1 year4; apa_page;
        Chr ")"].

(** ['chicago']['in_text']:
    AUTHORS [\s+\((\d{4})(?:,\s+\d+(?:-\d+)?)?\)] *)
Definition chicago_in_text : regex :=
  Cats [authors 0; spaces; Chr "("; Group 1 year4;
        Opt (Cats [Chr ","; spaces; digits; range_end]); Chr ")"].

(** ['chicago']['footnote']: [(?<!\d)(\d+)\.?\s+(] then the text of
    [names] then [),\s+[^,]+,\s+(\d+)(?:-\d+)?] *)
Definition chicago_footnote : regex :=
  Cats [NotBehind [Digit]; Group 0 digits; Opt (Chr "."); spaces;
        Group 1 names; Chr ","; spaces; Plus (Set_ true [Lit ","]);
        Chr ","; spaces; Group 2 digits; range_end].

(** A compiled pattern: the expression and the number of its groups. *)
Record pattern : Type := Pattern {
  groups_of : nat;
  regex_of : regex
}.

(** [self.citation_patterns], in the order the dict is written. *)
Definition citation_patterns : list (string * list (string * pattern)) :=
  [ ("mla", [ ("in_text", Pattern 2 mla_in_text);
              ("parenthetical", Pattern 2 mla_parenthetical) ]);
    ("apa", [ ("in_text", Pattern 2 apa_in_text);
              ("parenthetical", Pattern 2 apa_parenthetical) ]);
    ("chicago", [ ("in_text", Pattern 2 chicago_in_text);
                  ("footnote", Pattern 3 chicago_footnote) ]) ].

(** [re.finditer(pattern, sentence)] *)
Definition finditer (p : pattern) (sentence : string) : list match_ :=
  Re.finditer (groups_of p) (regex_of p) sentence.

(** *** Values and dicts *)

(** The values stored in a citation dict: a [str] or a tuple of [str] and
    [None]. *)
Inductive pyval : Type :=
| VStr (s : string)
| VTuple (items : list (option string)).

(** A citation: a dict with [str] keys. *)
Abbreviation citation := (gmap string pyval).

(** A dict whose iteration order matters: the items in insertion order. *)
Definition odict (V : Type) : Type := list (string * V).

(** [d.get(k)] *)
Fixpoint od_get {V : Type} (k : string) (d : odict V) : option V :=
  match d with
  | [] => None
  | (k', v) :: d' => if String.eqb k k' then Some v else od_get k d'
  end.

(** [d[k] = f(d[k])] for a key [k] of [d]; the order of the keys is kept. *)
Fixpoint od_alter {V : Type} (f : V -> V) (k : string) (d : odict V)
  : odict V :=
  match d with
  | [] => []
  | (k', v) :: d' =>
      if String.eqb k k' then (k', f v) :: d' else (k', v) :: od_alter f k d'
  end.

(** *** extract_citations *)

(** The dict built for one match. *)
Definition make_citation (type_name sentence : string) (m : match_)
  : citation :=
  <["groups" := VTuple (groups m)]>
    (<["sentence" := VStr sentence]>
       (<["type" := VStr type_name]>
          (<["text" := VStr (group0 m)]> ∅))).

(** The two dicts the loops update. *)
Record tally : Type := Tally {
  t_counts : odict Z;
  t_citations : odict (list citation)
}.

(** The body of [for match in matches]. *)
Definition record_match (style type_name sentence : string) (acc : tally)
    (m : match_) : tally :=
  Tally (od_alter (fun n => n + 1) style (t_counts acc))
        (od_alter (fun cs => cs ++ [make_citation type_name sentence m])
                  style (t_citations acc)).

(** The body of [for type_name, pattern in ...items()]. *)
Definition scan_pattern (style sentence : string) (acc : tally)
    (tp : string * pattern) : tally :=
  fold_left (record_match style (fst tp) sentence)
            (finditer (snd tp) sentence) acc.

(** The body of [for style in self.citation_patterns]. *)
Definition scan_style (sentence : string) (acc : tally)
    (sp : string * list (string * pattern)) : tally :=
  fold_left (scan_pattern (fst sp) sentence) (snd sp) acc.

(** The body of [for sentence in sentences]. *)
Definition scan_sentence (acc : tally) (sentence : string) : tally :=
  fold_left (scan_style sentence) citation_patterns acc.

(** [max(keys, key=key)] over a non-empty sequence [best :: keys]: the
    first key whose value is maximal. *)
Fixpoint max_by {A : Type} (key : A -> Z) (best : A) (keys : list A) : A :=
  match keys with
  | [] => best
  | k :: keys' => max_by key (if key best <? key k then k else best) keys'
  end.

(** The vote that ends [extract_citations]:
    [max(style_counts, key=style_counts.get)], turned into [None] when
    its count is zero. *)
Definition vote (style_counts : odict Z) : option string :=
  match map fst style_counts with
  | [] => None
  | k :: keys =>
      let get := fun k => default 0 (od_get k style_counts) in
      let dominant_style := max_by get k keys in
      if get dominant_style =? 0 then None else Some dominant_style
  end.

(** The dict [extract_citations] returns. *)
Record analysis : Type := Analysis {
  dominant_style : option string;
  citations : odict (list citation);
  style_counts : odict Z
}.

Definition initial_tally : tally :=
  Tally [("mla", 0); ("apa", 0); ("chicago", 0)]
        [("mla", []); ("apa", []); ("chicago", [])].

Section Extract.

(** [nltk.tokenize.sent_tokenize], the sentence splitter of NLTK. *)
Variable sent_tokenize : string -> list string.

Definition extract_citations (text : string) : analysis :=
  let sentences := sent_tokenize text in
  let acc := fold_left scan_sentence sentences initial_tally in
  Analysis (vote (t_counts acc)) (t_citations acc) (t_counts acc).

End Extract.

(** *** convert_citation *)

(** [citation[key]] *)
Definition getitem (c : citation) (key : string) : result pyval :=
  match c !! key with
  | Some v => Ok v
  | None => Raise (KeyError key)
  end.

(** [v[i]] for [0 <= i]: an item of a tuple, or a character of a [str]. *)
Definition index (v : pyval) (i : nat) : result (option string) :=
  match v with
  | VTuple items =>
      match items !! i with
      | Some x => Ok x
      | None => Raise IndexError
      end
  | VStr s =>
      match String.get i s with
      | Some a => Ok (Some (String a EmptyString))
      | None => Raise IndexError
      end
  end.

(** [citation['groups'][i]] *)
Definition group_item (c : citation) (i : nat) : result (option string) :=
  g ← getitem c "groups"; index g i.

(** [p\.?\s+(\d+(?:-\d+)?)] *)
Definition page_after_p : pattern :=
  Pattern 1 (Cats [Chr "p"; Opt (Chr "."); spaces;
                   Group 0 (Cat digits range_end)]).

(** [(\d+(?:-\d+)?)] *)
Definition first_number : pattern :=
  Pattern 1 (Group 0 (Cat digits range_end)).

(** [page_match = re.search(p, citation['text'])] followed by
    [page_match.group(1) if page_match else None]. *)
Definition search_page (p : pattern) (c : citation)
  : result (option string) :=
  text ← getitem c "text";
  match text with
  | VStr s =>
      match search (groups_of p) (regex_of p) s with
      | Some m => Ok (group m 0)
      | None => Ok None
      end
  | VTuple _ => Raise TypeError
  end.

(** [v == s] for a [str] [s] *)
Definition eq_str (v : pyval) (s : string) : bool :=
  match v with
  | VStr s' => String.eqb s' s
  | VTuple _ => false
  end.

(** The local variables of [convert_citation]; [None] is a variable that
    has not been assigned. Their values are a [str] or [None]. *)
Record locals : Type := Locals {
  author : option (option string);
  year : option (option string);
  page : option (option string)
}.

(** Reading a local variable. *)
Definition read (name : string) (v : option (option string))
  : result (option string) :=
  match v with
  | Some x => Ok x
  | None => Raise (UnboundLocalError name)
  end.

(** A value inside an f-string. *)
Definition fmt (v : option string) : string := default "None" v.

(** The truth value of a [str] or [None]. *)
Definition truthy (v : option string) : bool :=
  match v with
  | Some s => Py.truthy s
  | None => false
  end.

(** The first half of [convert_citation]: author, year and page are taken
    from the citation according to [from_style]. *)
Definition extract_fields (c : citation) (from_style : string)
  : result locals :=
  if String.eqb from_style "mla" then
    author ← group_item c 0;
    page ← group_item c 1;
    Ok (Locals (Some author) (Some (Some "n.d.")) (Some page))
  else if String.eqb from_style "apa" then
    author ← group_item c 0;
    year ← group_item c 1;
    page ← search_page page_after_p c;
    Ok (Locals (Some author) (Some year) (Some page))
  else if String.eqb from_style "chicago" then
    type_ ← getitem c "type";
    if eq_str type_ "in_text" then
      author ← group_item c 0;
      year ← group_item c 1;
      page ← search_page first_number c;
      Ok (Locals (Some author) (Some year) (Some page))
    else
      footnote_num ← group_item c 0;
      author ← group_item c 1;
      page ← group_item c 2;
      Ok (Locals (Some author) (Some (Some "n.d.")) (Some page))
  else Ok (Locals None None None).

(** The second half: the text in [to_style]. *)
Definition render (c : citation) (to_style : string) (l : locals)
  : result pyval :=
  if String.eqb to_style "mla" then
    page ← read "page" (page l);
    author ← read "author" (author l);
    if truthy page then
      Ok (VStr ("(" +:+ fmt author +:+ " " +:+ fmt page +:+ ")"))
    else
      Ok (VStr ("(" +:+ fmt author +:+ ")"))
  else if String.eqb to_style "apa" then
    page ← read "page" (page l);
    author ← read "author" (author l);
    year ← read "year" (year l);
    if truthy page then
      Ok (VStr ("(" +:+ fmt author +:+ ", " +:+ fmt year +:+ ", p. "
                    +:+ fmt page +:+ ")"))
    else
      Ok (VStr ("(" +:+ fmt author +:+ ", " +:+ fmt year +:+ ")"))
  else if String.eqb to_style "chicago" then
    type_ ← getitem c "type";
    if eq_str type_ "in_text" then
      page ← read "page" (page l);
      author ← read "author" (author l);
      year ← read "year" (year l);
      if truthy page then
        Ok (VStr (fmt author +:+ " (" +:+ fmt year +:+ ", " +:+ fmt page
                      +:+ ")"))
      else
        Ok (VStr (fmt author +:+ " (" +:+ fmt year +:+ ")"))
    else
      Ok (VStr "[Citation converted to Chicago footnote]")
  else
    getitem c "text".

Definition convert_citation (c : citation) (from_style to_style : string)
  : result pyval :=
  l ← extract_fields c from_style;
  render c to_style l.

(** *** identify_bibliography *)

Definition bib_titles : list string :=
  ["Works Cited"; "References"; "Bibliography"; "Literature Cited";
   "Sources"].

(** [(?:^|\n)\s*TITLE\s*(?:\n|$)(.*?)(?:$|\n\s*(?:[A-Z][a-zA-Z\s]+:|\[))]
    with [re.DOTALL], TITLE being the section title. *)
Definition section_pattern (title : string) : pattern :=
  Pattern 1
    (Cats [Alt Bol (Chr Py.newline); Star true (Cls Space); Str title;
           Star true (Cls Space); Alt (Chr Py.newline) Eol;
           Group 0 (Star false (Cls Any));
           Alt Eol
               (Cats [Chr Py.newline; Star true (Cls Space);
                      Alt (Cats [upper;
                                 Plus (Set_ false [Range "a" "z";
                                                   Range "A" "Z"; Space]);
                                 Chr ":"])
                          (Chr "[")])]).

(** [(?:^|\n)(] then the text of [names] then [),\s+[A-Z]] *)
Definition author_line : pattern :=
  Pattern 1 (Cats [Alt Bol (Chr Py.newline); Group 0 names; Chr ",";
                   spaces; upper]).

(** [\n(?=[A-Z])] *)
Definition entry_break : regex := Cat (Chr Py.newline) (Ahead upper).

(** [^(] then the text of [names] then [)] *)
Definition leading_author : pattern := Pattern 1 (Cat Bol (Group 0 names)).

(** [(\d{4})] *)
Definition four_digits : pattern := Pattern 1 (Group 0 year4).

(** Between two double quotes, a group of one or more characters that
    are not a double quote. *)
Definition quoted : pattern :=
  Pattern 1 (Cats [Chr Py.dquote; Group 0 (Plus (Set_ true [Lit Py.dquote]));
                   Chr Py.dquote]).

Definition re_search (p : pattern) (s : string) : option match_ :=
  search (groups_of p) (regex_of p) s.

(** The loop [for title in bib_titles], with its [break]: the stripped
    first group of the first title that matches. The group takes part in
    every match of the pattern. *)
Fixpoint titled_section (titles : list string) (text : string)
  : option string :=
  match titles with
  | [] => None
  | title :: titles' =>
      match re_search (section_pattern title) text with
      | Some m => Some (Py.strip (default EmptyString (group m 0)))
      | None => titled_section titles' text
      end
  end.

(** The second attempt: the last three paragraphs, when one of their
    lines starts like an author. *)
Definition tail_section (text : string) : option string :=
  let paragraphs := Py.split_sep (Py.nl +:+ Py.nl) text in
  if (3 <? List.length paragraphs)%nat then
    let last_paras := Py.join (Py.nl +:+ Py.nl) (Py.last_n 3 paragraphs) in
    match re_search author_line last_paras with
    | Some _ => Some last_paras
    | None => None
    end
  else None.

(** [bib_section] after both attempts; a section that is [None] or empty
    after the first one leads to the second. *)
Definition locate_section (text : string) : option string :=
  match titled_section bib_titles text with
  | Some (String a s) => Some (String a s)
  | _ => tail_section text
  end.

(** A bibliography entry: a dict from [str] to [str]. *)
Abbreviation entry := (gmap string string).

(** The title found between the author and the year. *)
Definition title_between (entry_text : string) (author_match year_match : match_)
  : option string :=
  let author_end := m_end author_match in
  let year_start := m_start year_match in
  if (author_end <? year_start)%nat then
    let potential_title := Py.strip (Py.slice entry_text author_end year_start) in
    if Py.truthy potential_title
    then Some (Py.strip_chars "., " potential_title)
    else None
  else None.

(** The body of [for entry_text in entries_raw] for a stripped, non-empty
    [entry_text]. *)
Definition parse_entry (entry_text : string) : entry :=
  let e : entry := ∅ in
  let author_match := match_start 1 (regex_of leading_author) entry_text in
  let e := match author_match with
           | Some m => <["author" := default EmptyString (group m 0)]> e
           | None => e
           end in
  let year_match := re_search four_digits entry_text in
  let e := match year_match with
           | Some m => <["year" := default EmptyString (group m 0)]> e
           | None => e
           end in
  let e := match re_search quoted entry_text with
           | Some m => <["title" := default EmptyString (group m 0)]> e
           | None =>
               match author_match, year_match with
               | Some am, Some ym =>
                   match title_between entry_text am ym with
                   | Some t => <["title" := t]> e
                   | None => e
                   end
               | _, _ => e
               end
           end in
  <["raw" := entry_text]> e.

(** The stripped texts of the entries that are kept. *)
Definition entry_texts (bib_section : string) : list string :=
  filter (fun entry_text => Py.truthy entry_text = true)
         (map Py.strip (Re.split entry_break bib_section)).

Definition identify_bibliography (text : string) : list entry :=
  match locate_section text with
  | None => []
  | Some bib_section => map parse_entry (entry_texts bib_section)
  end.

(** *** Notions the properties are stated with *)

(** The count and the citations of the style [s] in the two dicts. *)
Definition view (s : string) (acc : tally) : option (Z * list citation) :=
  n ← od_get s (t_counts acc); cs ← od_get s (t_citations acc); Some (n, cs).

(** The matches [new] added to a count and a list of citations. *)
Definition extend (new : list citation) (p : Z * list citation)
  : Z * list citation :=
  (fst p + Z.of_nat (List.length new), snd p ++ new).

(** The citations one sentence adds with the patterns [pats] of a style. *)
Definition emitted_patterns (pats : list (string * pattern))
    (sentence : string) : list citation :=
  flat_map (fun tp => map (make_citation (fst tp) sentence)
                          (finditer (snd tp) sentence)) pats.

(** The citations one sentence adds for the style [s]. *)
Definition emitted_styles (catalog : list (string * list (string * pattern)))
    (s sentence : string) : list citation :=
  flat_map (fun sp => if String.eqb s (fst sp)
                      then emitted_patterns (snd sp) sentence else []) catalog.

(** The two dicts of [acc'] have the keys of those of [acc], in order. *)
Definition same_keys (acc acc' : tally) : Prop :=
  map fst (t_counts acc') = map fst (t_counts acc)
  /\ map fst (t_citations acc') = map fst (t_citations acc).

(** What [sent_tokenize] returns for a text of one sentence. *)
Definition whole_text (text : string) : list string := [text].

(** The citation of the specification's example: the MLA citation
    [(Smith 45)], whose groups are the author and the page. *)
Definition smith_45 : citation :=
  <["groups" := VTuple [Some "Smith"; Some "45"]]>
    (<["sentence" := VStr "As shown (Smith 45)."]>
       (<["type" := VStr "parenthetical"]>
          (<["text" := VStr "(Smith 45)"]> ∅))).

Definition known_style (style : string) : Prop :=
  style = "mla" \/ style = "apa" \/ style = "chicago".

(** A text with a References heading followed by two lines that start with
    an author. *)
Definition two_references : string :=
  "Closing remarks." +:+ Py.nl +:+ "References" +:+ Py.nl
  +:+ "Smith, John. The Title. 2020." +:+ Py.nl
  +:+ "Doe, Jane. Other Work. 2019.".

(** *** format_bibliography_entry *)

(** The one-character string made of a double quote. *)
Definition quote : string := String Py.dquote EmptyString.

(** [key in entry] *)
Definition has_key (e : entry) (key : string) : bool :=
  match e !! key with
  | Some _ => true
  | None => false
  end.

Definition format_bibliography_entry (e : entry) (style : string) : string :=
  let author := default "Unknown Author" (e !! "author") in
  let title := default "Untitled" (e !! "title") in
  let year := default "n.d." (e !! "year") in
  let publisher := default EmptyString (e !! "publisher") in
  let location := default EmptyString (e !! "location") in
  let journal := default EmptyString (e !! "journal") in
  let volume := default EmptyString (e !! "volume") in
  let issue := default EmptyString (e !! "issue") in
  let pages := default EmptyString (e !! "pages") in
  let url := default EmptyString (e !! "url") in
  if String.eqb style "mla" then
    if has_key e "journal" then
      author +:+ ". " +:+ quote +:+ title +:+ "." +:+ quote +:+ " "
        +:+ journal +:+ ", vol. " +:+ volume +:+ ", no. " +:+ issue +:+ ", "
        +:+ year +:+ ", pp. " +:+ pages +:+ "."
    else if has_key e "url" then
      author +:+ ". " +:+ quote +:+ title +:+ "." +:+ quote +:+ " "
        +:+ publisher +:+ ", " +:+ year +:+ ", " +:+ url +:+ "."
    else
      author +:+ ". " +:+ title +:+ ". " +:+ location +:+ ": "
        +:+ publisher +:+ ", " +:+ year +:+ "."
  else if String.eqb style "apa" then
    if has_key e "journal" then
      author +:+ ". (" +:+ year +:+ "). " +:+ title +:+ ". " +:+ journal
        +:+ ", " +:+ volume +:+ "(" +:+ issue +:+ "), " +:+ pages +:+ "."
    else if has_key e "url" then
      author +:+ ". (" +:+ year +:+ "). " +:+ title +:+ ". " +:+ publisher
        +:+ ". " +:+ url
    else
      author +:+ ". (" +:+ year +:+ "). " +:+ title +:+ ". " +:+ publisher
        +:+ "."
  else if String.eqb style "chicago" then
    if has_key e "journal" then
      author +:+ ". " +:+ quote +:+ title +:+ "." +:+ quote +:+ " "
        +:+ journal +:+ " " +:+ volume +:+ ", no. " +:+ issue +:+ " ("
        +:+ year +:+ "): " +:+ pages +:+ "."
    else if has_key e "url" then
      author +:+ ". " +:+ quote +:+ title +:+ "." +:+ quote +:+ " "
        +:+ publisher +:+ ", " +:+ year +:+ ". " +:+ url +:+ "."
    else
      author +:+ ". " +:+ title +:+ ". " +:+ location +:+ ": "
        +:+ publisher +:+ ", " +:+ year +:+ "."
  else
    author +:+ ". " +:+ title +:+ ". " +:+ year +:+ ".".

(** The text the Chicago target gives for a citation that is not in-text. *)
Definition footnote_placeholder : string :=
  "[Citation converted to Chicago footnote]".

End CitationProcessor.

(* ================================================================== *)
(** ** class DocumentAnalyzer *)
(* ================================================================== *)

Module DocumentAnalyzer.

Import Re.

(** [r{0,n}], greedy. *)
Fixpoint at_most (n : nat) (r : regex) : regex :=
  match n with
  | O => Eps
  | S n' => Opt (Cat r (at_most n' r))
  end.

(** [[A-Za-z\s:]] *)
Definition heading_char : regex :=
  Set_ false [Range "A" "Z"; Range "a" "z"; Space; Lit ":"].

(** [(?:^|\n)([A-Z][A-Za-z\s:]{2,50})(?:\n|\r)] *)
Definition heading_pattern : regex :=
  Cats [Alt Bol (Chr Py.newline);
        Group 0 (Cats [Cls (Range "A" "Z"); heading_char; heading_char;
                       at_most 48 heading_char]);
        Alt (Chr Py.newline) (Chr (Py.chr 13))].

(** An element of the list [_identify_sections] returns. *)
Record section_t : Type := Section_ {
  heading : string;
  position : Z;
  level : Z
}.

(** [s.find(sub)] seen from the offset [i] of [s]: the lowest index where
    [sub] starts, or -1. *)
Fixpoint find_at (sub s : string) (i : nat) : Z :=
  match Py.drop_prefix sub s with
  | Some _ => Z.of_nat i
  | None =>
      match s with
      | EmptyString => -1
      | String _ s' => find_at sub s' (S i)
      end
  end.

(** [s.find(sub)] *)
Definition find (s sub : string) : Z := find_at sub s 0.

(** [s.endswith(suffix)] *)
Definition endswith (s suffix : string) : bool :=
  match Py.drop_prefix (Py.rev suffix) (Py.rev s) with
  | Some _ => true
  | None => false
  end.

(** The body of [for match in potential_headings], on the list of sections
    and [last_pos]. *)
Definition scan_heading (acc : list section_t * Z) (m : match_)
  : list section_t * Z :=
  let '(sections, last_pos) := acc in
  let heading_text := Py.strip (default EmptyString (group m 0)) in
  let heading_pos := Z.of_nat (m_start m) in
  if (heading_pos - last_pos <? 100)
     && match sections with [] => false | _ :: _ => true end
  then acc
  else (sections ++ [Section_ heading_text heading_pos 1], heading_pos).

(** The first loop of [_identify_sections]. *)
Definition heading_sections (text : string) : list section_t :=
  fst (fold_left scan_heading (finditer 1 heading_pattern text) ([], 0)).

(** [[p.strip() for p in text.split('\n\n') if p.strip()]] *)
Definition stripped_paragraphs (text : string) : list string :=
  filter (fun p => Py.truthy p = true)
         (map Py.strip (Py.split_sep (Py.nl +:+ Py.nl) text)).

(** The body of the loop over the paragraphs, [i] being the index. *)
Definition scan_paragraph (text : string) (acc : list section_t * nat)
    (para : string) : list section_t * nat :=
  let '(sections, i) := acc in
  if (0 <? i)%nat && (Py.len para <? 100) && negb (endswith para ".")
  then (sections ++ [Section_ para (find text para) 1], S i)
  else (sections, S i).

(** [_identify_sections]; [sentence_model] tells whether
    [self.sentence_model] is set. *)
Definition _identify_sections (sentence_model : bool) (text : string)
  : list section_t :=
  let sections := heading_sections text in
  if sentence_model && (List.length sections =? 0)%nat then
    fst (fold_left (scan_paragraph text) (stripped_paragraphs text)
           (sections, 0%nat))
  else sections.

(** What the first loop keeps: neighbours are at least 100 characters
    apart, [last_pos] is the position of the last section, and every
    section has level 1 and a position that is not negative. *)
Definition sections_inv (acc : list section_t * Z) : Prop :=
  (forall (i : nat) (a b : section_t),
     fst acc !! i = Some a -> fst acc !! S i = Some b ->
     position a + 100 <= position b)
  /\ (forall s : section_t, last (fst acc) = Some s -> position s = snd acc)
  /\ Forall (fun s => level s = 1 /\ 0 <= position s) (fst acc).

(** A text with two headings, 137 characters apart. *)
Definition two_headings : string :=
  "Introduction" +:+ Py.nl
  +:+ "the measure of a line, the width of a margin and the place of a "
  +:+ "heading are older than movable type, and so are their rules."
  +:+ Py.nl +:+ "Methods" +:+ Py.nl +:+ "we count.".

End DocumentAnalyzer.

(* ================================================================== *)
(** ** The command line: setup_optimization *)
(* ================================================================== *)

Module Cli.

Import FormatOptimizer.

(** [setup_optimization(enable_precision, metadata)]: the optimizer the
    command line builds; [metadata] is not read, and the messages that are
    logged and printed are left out. *)
Definition setup_optimization (enable_precision : bool) : result t :=
  let optimizer := init in
  if enable_precision then
    let optimizer :=
      set_page_size optimizer LETTER_WIDTH LETTER_HEIGHT "point" in
    optimizer ← set_margins optimizer (Some 72%Q) (Some 72%Q) (Some 72%Q)
                  (Some 72%Q) "point";
    r ← calculate_optimal_margins optimizer 66%Q;
    Ok (fst r)
  else Ok optimizer.

End Cli.


(* ================================================================== *)
(** ** Properties of the page layout *)
(* ================================================================== *)

Section MarginFacts.

Import FormatOptimizer.
Local Open Scope Q_scope.

(** [calculate_optimal_margins] never raises: it stores the solved margin
    on both sides and recomputes the content area. *)
Lemma calculate_optimal_margins_eq (self : t) (target_line_length : Q) :
  let x := solved_margin self target_line_length in
  let self' :=
    _calculate_content_area (page_width self) (page_height self)
      (Margins (top (margins self)) x (bottom (margins self)) x) in
  calculate_optimal_margins self target_line_length
  = Ok (self', margins self').
Proof. reflexivity. Qed.







End MarginFacts.

Section LayoutFacts.

Import FormatOptimizer.

Lemma string_length_append (s1 s2 : string) :
  String.length (s1 +:+ s2) = (String.length s1 + String.length s2)%nat.
Proof. induction s1 as [|a s1 IH]; simpl; [done|]. by rewrite IH. Qed.

Lemma len_append (s1 s2 : string) : Py.len (s1 +:+ s2) = Py.len s1 + Py.len s2.
Proof. unfold Py.len. rewrite string_length_append. lia. Qed.

Lemma len_nonneg (s : string) : 0 <= Py.len s.
Proof. unfold Py.len. lia. Qed.

Lemma len_pos (s : string) : s <> EmptyString -> 0 < Py.len s.
Proof. destruct s; [done|]. unfold Py.len; simpl. lia. Qed.

Lemma length_rev_onto (s acc : string) :
  String.length (Py.rev_onto s acc) = (String.length s + String.length acc)%nat.
Proof.
  revert acc. induction s as [|a s IH]; intros acc; simpl; [done|].
  rewrite IH. simpl. lia.
Qed.

Lemma rev_nonempty (s : string) : s <> EmptyString -> Py.rev s <> EmptyString.
Proof.
  intros Hs Hrev. apply (f_equal String.length) in Hrev.
  unfold Py.rev in Hrev. rewrite length_rev_onto in Hrev.
  destruct s; [done|]. simpl in Hrev. lia.
Qed.

Lemma split_ws_from_nonempty (s cur : string) :
  Forall (fun w => w <> EmptyString) (Py.split_ws_from s cur).
Proof.
  revert cur. induction s as [|a s IH]; intros cur; simpl.
  - destruct cur; [constructor|]. constructor; [|constructor].
    by apply rev_nonempty.
  - destruct (Py.isspace a); [|apply IH].
    destruct cur; [apply IH|]. constructor; [|apply IH].
    by apply rev_nonempty.
Qed.

Lemma split_ws_nonempty (text : string) :
  Forall (fun w => w <> EmptyString) (Py.split_ws text).
Proof. apply split_ws_from_nonempty. Qed.

Lemma string_append_assoc (s1 s2 s3 : string) :
  (s1 +:+ s2) +:+ s3 = s1 +:+ (s2 +:+ s3).
Proof.
  induction s1 as [|a s1 IH]; [done|].
  change (String a ((s1 +:+ s2) +:+ s3) = String a (s1 +:+ (s2 +:+ s3))).
  by rewrite IH.
Qed.

Lemma join_snoc (line : list string) (word : string) :
  Py.join " " (line ++ [word])
  = match line with
    | [] => word
    | _ :: _ => Py.join " " line +:+ " " +:+ word
    end.
Proof.
  induction line as [|w [|w' line] IH]; [done|done|].
  change (Py.join " " ((w :: w' :: line) ++ [word]))
    with (w +:+ " " +:+ Py.join " " ((w' :: line) ++ [word])).
  rewrite IH.
  change (Py.join " " (w :: w' :: line))
    with (w +:+ " " +:+ Py.join " " (w' :: line)).
  by rewrite !string_append_assoc.
Qed.

Lemma len_join_snoc (line : list string) (word : string) :
  Py.len (Py.join " " (line ++ [word]))
  = Py.len (Py.join " " line) + (Py.len word
    + match line with [] => 0 | _ :: _ => 1 end).
Proof.
  rewrite join_snoc. destruct line as [|w line].
  - simpl. unfold Py.len at 2. simpl. lia.
  - rewrite !len_append. unfold Py.len at 2. simpl. lia.
Qed.

Lemma len_join_pos (line : list string) :
  Forall (fun w => w <> EmptyString) line -> line <> [] ->
  0 < Py.len (Py.join " " line).
Proof.
  intros Hall Hne. destruct line as [|w line]; [done|].
  apply Forall_cons_1 in Hall as [Hw _]. apply len_pos in Hw.
  destruct line as [|w' line]; [done|].
  change (Py.join " " (w :: w' :: line))
    with (w +:+ " " +:+ Py.join " " (w' :: line)).
  rewrite len_append.
  pose proof (len_nonneg (" " +:+ Py.join " " (w' :: line))). lia.
Qed.

Lemma wrap_inv_separator (st : wrap_state) :
  wrap_inv st ->
  (if 0 <? current_length st then 1 else 0)
  = match current_line st with [] => 0 | _ :: _ => 1 end.
Proof.
  intros [Hall Hlen]. destruct (current_line st) as [|w line] eqn:Hline.
  - rewrite Hlen. reflexivity.
  - pose proof (len_join_pos (w :: line) Hall) as Hpos.
    rewrite <- Hlen in Hpos.
    destruct (Z.ltb_spec 0 (current_length st)); [done|].
    assert (0 < current_length st) by by apply Hpos. lia.
Qed.

Lemma wrap_step_inv (cpl : Z) (st : wrap_state) (word : string) :
  wrap_inv st -> word <> EmptyString -> wrap_inv (wrap_step cpl st word).
Proof.
  intros Hinv Hword. pose proof (wrap_inv_separator st Hinv) as Hsep.
  destruct Hinv as [Hall Hlen]. unfold wrap_step. rewrite Hsep.
  destruct (cpl <? _); split; simpl.
  - by apply Forall_singleton.
  - done.
  - apply Forall_app; split; [done|]. by apply Forall_singleton.
  - by rewrite len_join_snoc, Hlen.
Qed.








(** The lines are the words, in order, grouped and joined. *)
Lemma wrap_fold_groups (cpl : Z) (words : list string) (st : wrap_state)
    (groups : list (list string)) :
  lines st = map (Py.join " ") groups ->
  exists groups' : list (list string),
    let st' := fold_left (wrap_step cpl) words st in
    lines st' = map (Py.join " ") groups'
    /\ concat groups' ++ current_line st'
       = concat groups ++ current_line st ++ words.
Proof.
  revert st groups. induction words as [|w words IH]; intros st groups Hlines.
  - exists groups. simpl. by rewrite app_nil_r.
  - cbn [fold_left]. unfold wrap_step at 2 4.
    destruct (cpl <? _).
    + destruct (IH (Wrap (lines st ++ [Py.join " " (current_line st)]) [w]
                         (Py.len w)) (groups ++ [current_line st]))
        as (groups' & Hl & Hc).
      { simpl. by rewrite map_app, Hlines. }
      exists groups'. split; [done|]. cbv zeta in Hc. rewrite Hc. simpl.
      rewrite concat_app. simpl. by rewrite app_nil_r, <- app_assoc.
    + destruct (IH (Wrap (lines st) (current_line st ++ [w])
                         (current_length st + (Py.len w
                            + (if 0 <? current_length st then 1 else 0))))
                   groups Hlines) as (groups' & Hl & Hc).
      exists groups'. split; [done|]. cbv zeta in Hc. rewrite Hc. simpl.
      by rewrite <- app_assoc.
Qed.

Lemma wrap_words_groups (cpl : Z) (words : list string) :
  exists groups : list (list string),
    concat groups = words /\ wrap_words cpl words = map (Py.join " ") groups.
Proof.
  destruct (wrap_fold_groups cpl words (Wrap [] [] 0) [] eq_refl)
    as (groups & Hl & Hc).
  cbv zeta in Hl, Hc. simpl in Hc. unfold wrap_words.
  destruct (current_line _) as [|w line] eqn:Hline.
  - exists groups. rewrite app_nil_r in Hc. done.
  - exists (groups ++ [w :: line]). split.
    + by rewrite concat_app; simpl; rewrite app_nil_r.
    + by rewrite map_app, Hl.
Qed.



Lemma stranded_test (h b : Z) :
  (0 <? h - b) && (h - b <? 3) = true <-> stranded h b.
Proof. unfold stranded. rewrite andb_true_iff, Z.ltb_lt, Z.ltb_lt. done. Qed.

Lemma in_range1 (n i : Z) : In i (range1 n) <-> 1 <= i < n.
Proof.
  unfold range1. rewrite in_map_iff. split.
  - intros (k & <- & Hk). apply in_seq in Hk. lia.
  - intros Hi. exists (Z.to_nat i). split; [lia|]. apply in_seq. lia.
Qed.

Lemma in_page_breaks (lines_per_page page_count b : Z) :
  In b (page_breaks_of lines_per_page page_count)
  <-> exists i, 1 <= i < page_count /\ b = i * lines_per_page.
Proof.
  unfold page_breaks_of. rewrite in_map_iff. split.
  - intros (i & <- & Hi). exists i. by rewrite <- in_range1.
  - intros (i & Hi & ->). exists i. by rewrite in_range1.
Qed.





End LayoutFacts.

(* ================================================================== *)
(** ** Properties of the citation processor *)
(* ================================================================== *)

Section CitationFacts.

Import CitationProcessor.

Lemma od_get_alter {V : Type} (f : V -> V) (s k : string) (d : odict V) :
  od_get s (od_alter f k d)
  = if String.eqb s k then f <$> od_get s d else od_get s d.
Proof.
  induction d as [|[k' v] d IH]; simpl.
  - by destruct (String.eqb s k).
  - destruct (String.eqb_spec k k') as [->|Hk]; simpl;
      destruct (String.eqb_spec s k') as [->|Hs]; simpl.
    all: try rewrite String.eqb_refl; try done.
    all: repeat case String.eqb_spec; simpl; intros; subst; try done.
Qed.

Lemma od_alter_keys {V : Type} (f : V -> V) (k : string) (d : odict V) :
  map fst (od_alter f k d) = map fst d.
Proof.
  induction d as [|[k' v] d IH]; simpl; [done|].
  destruct (String.eqb k k'); simpl; by rewrite ?IH.
Qed.

Lemma extend_nil p : extend [] p = p.
Proof. destruct p; unfold extend; simpl. by rewrite Z.add_0_r, app_nil_r. Qed.

Lemma extend_app l1 l2 p : extend l2 (extend l1 p) = extend (l1 ++ l2) p.
Proof.
  destruct p; unfold extend; simpl. rewrite length_app, app_assoc. f_equal. lia.
Qed.

Lemma view_record_match s style type_name sentence acc m :
  view s (record_match style type_name sentence acc m)
  = if String.eqb s style
    then extend [make_citation type_name sentence m] <$> view s acc
    else view s acc.
Proof.
  unfold view, record_match; simpl. rewrite !od_get_alter.
  destruct (String.eqb s style); [|done].
  destruct (od_get s (t_counts acc)); [|done]; simpl.
  destruct (od_get s (t_citations acc)); done.
Qed.

Lemma view_scan_matches s style type_name sentence ms acc :
  view s (fold_left (record_match style type_name sentence) ms acc)
  = if String.eqb s style
    then extend (map (make_citation type_name sentence) ms) <$> view s acc
    else view s acc.
Proof.
  revert acc; induction ms as [|m ms IH]; intros acc; simpl.
  - destruct (String.eqb s style); [|done].
    destruct (view s acc) as [p|]; simpl; [|done]. by rewrite extend_nil.
  - rewrite IH, view_record_match.
    destruct (String.eqb s style); [|done].
    destruct (view s acc) as [p|]; simpl; [|done]. by rewrite extend_app.
Qed.

Lemma view_scan_patterns s style sentence pats acc :
  view s (fold_left (scan_pattern style sentence) pats acc)
  = if String.eqb s style
    then extend (emitted_patterns pats sentence) <$> view s acc
    else view s acc.
Proof.
  revert acc; induction pats as [|tp pats IH]; intros acc; simpl.
  - destruct (String.eqb s style); [|done].
    destruct (view s acc) as [p|]; simpl; [|done]. by rewrite extend_nil.
  - rewrite IH. unfold scan_pattern. rewrite view_scan_matches.
    destruct (String.eqb s style); [|done].
    destruct (view s acc) as [p|]; simpl; [|done].
    by rewrite extend_app.
Qed.

Lemma view_scan_styles s sentence catalog acc :
  view s (fold_left (scan_style sentence) catalog acc)
  = extend (emitted_styles catalog s sentence) <$> view s acc.
Proof.
  revert acc; induction catalog as [|sp catalog IH]; intros acc; simpl.
  - destruct (view s acc) as [p|]; simpl; [|done]. by rewrite extend_nil.
  - rewrite IH. unfold scan_style. rewrite view_scan_patterns.
    unfold emitted_styles; simpl.
    destruct (String.eqb s (fst sp)); simpl; [|done].
    destruct (view s acc) as [p|]; simpl; [|done].
    by rewrite extend_app.
Qed.

Lemma view_scan_sentences s sentences acc :
  view s (fold_left scan_sentence sentences acc)
  = extend (flat_map (emitted_styles citation_patterns s) sentences)
      <$> view s acc.
Proof.
  revert acc; induction sentences as [|x xs IH]; intros acc; simpl.
  - destruct (view s acc) as [p|]; simpl; [|done]. by rewrite extend_nil.
  - rewrite IH. unfold scan_sentence. rewrite view_scan_styles.
    destruct (view s acc) as [p|]; simpl; [|done].
    by rewrite extend_app.
Qed.

Lemma fold_left_invariant {A B : Type} (P : A -> Prop) (f : A -> B -> A)
    (l : list B) (a : A) :
  P a -> (forall a b, P a -> P (f a b)) -> P (fold_left f l a).
Proof.
  intros Ha Hstep. revert a Ha.
  induction l as [|b l IH]; intros a Ha; simpl; [done|].
  apply IH, Hstep, Ha.
Qed.

Lemma scan_sentences_keys sentences acc :
  same_keys acc (fold_left scan_sentence sentences acc).
Proof.
  apply fold_left_invariant; [done|]. intros a sentence Ha.
  unfold scan_sentence. apply fold_left_invariant; [done|]. intros a1 sp Ha1.
  unfold scan_style. apply fold_left_invariant; [done|]. intros a2 tp Ha2.
  unfold scan_pattern. apply fold_left_invariant; [done|]. intros a3 m [H1 H2].
  split; simpl; by rewrite od_alter_keys.
Qed.

Lemma view_extract sent_tokenize text s :
  let r := extract_citations sent_tokenize text in
  (n ← od_get s (style_counts r); cs ← od_get s (citations r); Some (n, cs))
  = extend (flat_map (emitted_styles citation_patterns s) (sent_tokenize text))
      <$> view s initial_tally.
Proof. apply view_scan_sentences. Qed.

(** C1: for every count of the three styles, the vote that ends
    [extract_citations] returns the style with the maximum count, the
    first of mla, apa, chicago in case of a tie, and [None] when the
    maximum is zero; the counts 2, 2, 0 give mla; and the counts
    [extract_citations] votes on are always three non-negative counts for
    mla, apa and chicago, in that order. *)
Theorem vote_first_maximum :
  (forall mla apa chicago : Z,
     vote [("mla", mla); ("apa", apa); ("chicago", chicago)]
     = let top := Z.max mla (Z.max apa chicago) in
       if top =? 0 then None
       else if mla =? top then Some "mla"
       else if apa =? top then Some "apa"
       else Some "chicago")
  /\ vote [("mla", 2); ("apa", 2); ("chicago", 0)] = Some "mla"
  /\ vote [("mla", 0); ("apa", 0); ("chicago", 0)] = None
  /\ (forall (sent_tokenize : string -> list string) (text : string),
        exists mla apa chicago : Z,
          0 <= mla /\ 0 <= apa /\ 0 <= chicago
          /\ style_counts (extract_citations sent_tokenize text)
             = [("mla", mla); ("apa", apa); ("chicago", chicago)]
          /\ dominant_style (extract_citations sent_tokenize text)
             = vote [("mla", mla); ("apa", apa); ("chicago", chicago)]).
Proof.
  split; [|split; [done|split; [done|]]].
  - intros mla apa chicago. unfold vote; cbn -[Z.max Z.ltb Z.eqb].
    repeat match goal with
           | |- context [Z.ltb ?a ?b] =>
               is_var a; is_var b;
               destruct (Z.ltb_spec a b); cbn -[Z.max Z.ltb Z.eqb]
           end;
    repeat match goal with
           | |- context [Z.eqb ?a ?b] =>
               destruct (Z.eqb_spec a b); cbn -[Z.max Z.ltb Z.eqb]
           end; try done; lia.
  - intros tok text.
    pose proof (scan_sentences_keys (tok text) initial_tally) as [Hk _].
    pose proof (fun s => view_extract tok text s) as Hv.
    unfold extract_citations in *; simpl in *.
    set (acc := fold_left scan_sentence (tok text) initial_tally) in *.
    destruct (t_counts acc) as [|[k1 a] [|[k2 b] [|[k3 c] [|]]]]; try done.
    simpl in Hk. injection Hk as -> -> ->.
    exists a, b, c.
    pose proof (Hv "mla") as H1. pose proof (Hv "apa") as H2.
    pose proof (Hv "chicago") as H3. cbn in H1, H2, H3.
    destruct (od_get "mla" (t_citations acc)); [|done].
    destruct (od_get "apa" (t_citations acc)); [|done].
    destruct (od_get "chicago" (t_citations acc)); [|done].
    cbn in H1, H2, H3. injection H1 as -> _; injection H2 as -> _; injection H3 as -> _.
    repeat split; try lia.
Qed.

Lemma od_get_of_view s acc n cs :
  view s acc = Some (n, cs) ->
  od_get s (t_counts acc) = Some n /\ od_get s (t_citations acc) = Some cs.
Proof.
  unfold view. destruct (od_get s (t_counts acc)); [|done]; simpl.
  destruct (od_get s (t_citations acc)); [|done]; simpl.
  by intros [= -> ->].
Qed.

Lemma initial_view s :
  In s ["mla"; "apa"; "chicago"] -> view s initial_tally = Some (0, []).
Proof. simpl. intros [<-|[<-|[<-|[]]]]; reflexivity. Qed.

Lemma citations_of_style sent_tokenize text s cs :
  od_get s (citations (extract_citations sent_tokenize text)) = Some cs ->
  In s ["mla"; "apa"; "chicago"]
  /\ cs = flat_map (emitted_styles citation_patterns s) (sent_tokenize text)
  /\ od_get s (style_counts (extract_citations sent_tokenize text))
     = Some (Z.of_nat (List.length cs)).
Proof.
  intros Hcs.
  assert (In s ["mla"; "apa"; "chicago"]) as Hs.
  { pose proof (scan_sentences_keys (sent_tokenize text) initial_tally)
      as [_ Hk].
    unfold extract_citations in Hcs; simpl in Hcs.
    destruct (t_citations (fold_left scan_sentence (sent_tokenize text)
                             initial_tally))
      as [|[k1 a] [|[k2 b] [|[k3 c] [|]]]]; try done.
    simpl in Hk. injection Hk as -> -> ->. simpl in Hcs. simpl.
    destruct (String.eqb_spec s "mla"); [by left|].
    destruct (String.eqb_spec s "apa"); [by right; left|].
    destruct (String.eqb_spec s "chicago"); [by right; right; left|done]. }
  split; [done|].
  pose proof (view_extract sent_tokenize text s) as Hv. cbv zeta in Hv.
  rewrite (initial_view s Hs), Hcs in Hv.
  destruct (od_get s (style_counts _)) as [n|] eqn:Hn; [|done].
  cbn in Hv. injection Hv as -> ->. done.
Qed.

(** C4, as amended: every citation [extract_citations] records for a
    style comes from one match of one pattern of that style in one
    sentence of the text, and holds four fields: the matched text, the
    kind of the pattern, the sentence, and the capture groups of the match
    in the order of their opening parentheses. It has no position
    field. *)
Theorem citations_hold_groups_without_position
    (sent_tokenize : string -> list string) (text style : string)
    (cs : list (citation)) (c : citation) :
  od_get style (citations (extract_citations sent_tokenize text)) = Some cs ->
  In c cs ->
  c !! "position" = None
  /\ exists (sentence : string) (patterns : list (string * pattern))
            (type_name : string) (p : pattern) (m : Re.match_),
       In sentence (sent_tokenize text)
       /\ In (style, patterns) citation_patterns
       /\ In (type_name, p) patterns
       /\ In m (finditer p sentence)
       /\ c !! "text" = Some (VStr (Re.group0 m))
       /\ c !! "type" = Some (VStr type_name)
       /\ c !! "sentence" = Some (VStr sentence)
       /\ c !! "groups" = Some (VTuple (Re.groups m))
       /\ dom c = {["text"; "type"; "sentence"; "groups"]}.
Proof.
  intros Hcs Hc. apply citations_of_style in Hcs as (_ & -> & _).
  apply in_flat_map in Hc as (sentence & Hsent & Hc).
  unfold emitted_styles in Hc.
  apply in_flat_map in Hc as ([style' patterns] & Hcat & Hc); simpl in Hc.
  destruct (String.eqb_spec style style') as [<-|]; [|done].
  apply in_flat_map in Hc as ([type_name p] & Hpat & Hc); simpl in Hc.
  apply in_map_iff in Hc as (m & <- & Hm).
  split; [done|].
  exists sentence, patterns, type_name, p, m.
  repeat split; done.
Qed.

Lemma citations_hold_groups_without_position_witness :
  let m := Re.Match "See (Smith 45)." 4 14
             [Some (5, 10); Some (11, 13)]%nat in
  let c := make_citation "in_text" "See (Smith 45)." m in
  od_get "mla" (citations (extract_citations whole_text "See (Smith 45)."))
  = Some [c; make_citation "parenthetical" "See (Smith 45)." m]
  /\ c !! "position" = None
  /\ c !! "groups" = Some (VTuple [Some "Smith"; Some "45"]).
Proof.
  intros m c.
  assert (od_get "mla"
            (citations (extract_citations whole_text "See (Smith 45)."))
          = Some [c; make_citation "parenthetical" "See (Smith 45)." m])
    as Hget by (vm_compute; reflexivity).
  split; [exact Hget|].
  split; [|reflexivity].
  exact (proj1 (citations_hold_groups_without_position whole_text
                  "See (Smith 45)." "mla" _ c Hget (or_introl eq_refl))).
Defined.

(** C4, as stated, fails: the citation recorded for [(Smith 45)] has no
    position field. *)
Lemma position_field_absent :
  ~ (forall c : citation,
       In c (default [] (od_get "mla"
               (citations (extract_citations whole_text "See (Smith 45).")))) ->
       is_Some (c !! "position")).
Proof.
  intros H.
  set (cits := default [] _) in H.
  assert (match cits with
          | [] => false
          | c :: _ => match c !! "position" with None => true | _ => false end
          end = true) as Hfirst by (vm_compute; reflexivity).
  destruct cits as [|c cs]; [discriminate Hfirst|].
  destruct (H c) as [v Hv]; [by left|].
  rewrite Hv in Hfirst. discriminate Hfirst.
Qed.



(** C2, as stated, fails: the page taken from the MLA citation is
    written out, so the result is not [(Smith, n.d.)]. *)
Lemma mla_to_apa_keeps_the_page :
  convert_citation smith_45 "mla" "apa" <> Ok (VStr "(Smith, n.d.)").
Proof. vm_compute. discriminate. Qed.

Lemma convert_mla_to_apa
    (c : citation) (author page : string) (others : list (option string)) :
  c !! "groups" = Some (VTuple (Some author :: Some page :: others)) ->
  convert_citation c "mla" "apa"
  = Ok (VStr (if Py.truthy page
              then "(" +:+ author +:+ ", n.d., p. " +:+ page +:+ ")"
              else "(" +:+ author +:+ ", n.d.)")).
Proof.
  intros Hgroups. unfold convert_citation, extract_fields, group_item, getitem.
  cbn. rewrite Hgroups. cbn. by destruct page.
Qed.

(** C2, as amended: converting an MLA citation whose groups are an author
    and a page to APA writes the author, the year [n.d.] and the page,
    the page being left out only when it is empty; for the author Smith
    and the page 45 the result is exactly [(Smith, n.d., p. 45)]. *)
Theorem mla_to_apa_without_year :
  (forall (c : citation) (author page : string)
          (others : list (option string)),
     c !! "groups" = Some (VTuple (Some author :: Some page :: others)) ->
     convert_citation c "mla" "apa"
     = Ok (VStr (if Py.truthy page
                 then "(" +:+ author +:+ ", n.d., p. " +:+ page +:+ ")"
                 else "(" +:+ author +:+ ", n.d.)")))
  /\ convert_citation smith_45 "mla" "apa" = Ok (VStr "(Smith, n.d., p. 45)").
Proof. split; [exact convert_mla_to_apa|reflexivity]. Qed.

Lemma mla_to_apa_without_year_witness :
  smith_45 !! "groups" = Some (VTuple [Some "Smith"; Some "45"])
  /\ convert_citation smith_45 "mla" "apa"
     = Ok (VStr (if Py.truthy "45"
                 then "(" +:+ "Smith" +:+ ", n.d., p. " +:+ "45" +:+ ")"
                 else "(" +:+ "Smith" +:+ ", n.d.)")).
Proof.
  split; [reflexivity|].
  exact (proj1 mla_to_apa_without_year smith_45 "Smith" "45" [] eq_refl).
Defined.

(** C3, as stated, fails: with an unknown target style the citation text
    comes back unchanged, whether the source style is known or not, and
    with an unknown source style and a known target the error is an
    unbound local variable. *)
Lemma unknown_style_is_not_refused :
  convert_citation smith_45 "mla" "harvard" = Ok (VStr "(Smith 45)")
  /\ convert_citation smith_45 "harvard" "ieee" = Ok (VStr "(Smith 45)")
  /\ convert_citation smith_45 "harvard" "apa"
     = Raise (UnboundLocalError "page").
Proof. repeat split; vm_compute; reflexivity. Qed.

Lemma render_unknown (c : citation) (to_style : string) (l : locals) :
  ~ known_style to_style -> render c to_style l = getitem c "text".
Proof.
  intros Hto. unfold render.
  destruct (String.eqb_spec to_style "mla") as [->|_];
    [destruct Hto; by left|].
  destruct (String.eqb_spec to_style "apa") as [->|_];
    [destruct Hto; by right; left|].
  destruct (String.eqb_spec to_style "chicago") as [->|_];
    [destruct Hto; by right; right|].
  done.
Qed.

Lemma extract_fields_unknown (c : citation) (from_style : string) :
  ~ known_style from_style ->
  extract_fields c from_style = Ok (Locals None None None).
Proof.
  intros Hfrom. unfold extract_fields.
  destruct (String.eqb_spec from_style "mla") as [->|_];
    [destruct Hfrom; by left|].
  destruct (String.eqb_spec from_style "apa") as [->|_];
    [destruct Hfrom; by right; left|].
  destruct (String.eqb_spec from_style "chicago") as [->|_];
    [destruct Hfrom; by right; right|].
  done.
Qed.

(** C3, as amended: for every citation record, when the target style is
    none of mla, apa and chicago, [convert_citation] has no invalid-style
    error: it returns the text field of the citation unchanged (a
    [KeyError] when there is none) whenever the source style is unknown as
    well or its fields can be read from the record, and anything it
    returns is that text. *)
Theorem unknown_target_returns_text
    (c : citation) (from_style to_style : string) :
  ~ known_style to_style ->
  (forall l : locals,
     extract_fields c from_style = Ok l ->
     convert_citation c from_style to_style = getitem c "text")
  /\ (~ known_style from_style ->
      convert_citation c from_style to_style = getitem c "text")
  /\ (forall v : pyval,
        convert_citation c from_style to_style = Ok v -> c !! "text" = Some v).
Proof.
  intros Hto.
  assert (forall l, extract_fields c from_style = Ok l ->
                    convert_citation c from_style to_style = getitem c "text")
    as Hread.
  { intros l Hl. unfold convert_citation. rewrite Hl. cbn.
    by apply render_unknown. }
  split; [done|split].
  - intros Hfrom. by apply (Hread _ (extract_fields_unknown c from_style Hfrom)).
  - intros v. unfold convert_citation.
    destruct (extract_fields c from_style) as [l|e]; cbn; [|done].
    rewrite render_unknown by done. unfold getitem.
    destruct (c !! "text"); [|done]. by intros [= ->].
Qed.

Lemma unknown_target_returns_text_witness :
  ~ known_style "harvard"
  /\ convert_citation smith_45 "mla" "harvard" = getitem smith_45 "text"
  /\ getitem smith_45 "text" = Ok (VStr "(Smith 45)").
Proof.
  assert (~ known_style "harvard") as Hto by (intros [H|[H|H]]; discriminate H).
  split; [exact Hto|]. split; [|reflexivity].
  exact (proj1 (unknown_target_returns_text smith_45 "mla" "harvard" Hto)
           (Locals (Some (Some "Smith")) (Some (Some "n.d.")) (Some (Some "45")))
           eq_refl).
Defined.

Lemma parse_entry_raw (entry_text : string) :
  parse_entry entry_text !! "raw" = Some entry_text.
Proof. unfold parse_entry. apply lookup_insert_eq. Qed.

Lemma entry_texts_spec (bib_section entry_text : string) :
  In entry_text (entry_texts bib_section) ->
  entry_text <> EmptyString
  /\ exists piece : string,
       In piece (Re.split entry_break bib_section)
       /\ entry_text = Py.strip piece.
Proof.
  unfold entry_texts. intros Hin.
  apply list_elem_of_In, list_elem_of_filter in Hin as [Htruthy Hin].
  apply list_elem_of_In, in_map_iff in Hin as (piece & <- & Hpiece).
  split; [|by exists piece].
  intros Hempty. rewrite Hempty in Htruthy. discriminate Htruthy.
Qed.

(** C9: [identify_bibliography] returns the empty list when no section is
    located (no titled section and no fallback); every entry it returns
    holds under [raw] the whole stripped text of one piece of the located
    section, and that text is not empty; a text without sources gives the
    empty list, and a text with a References heading followed by two
    author lines gives exactly two entries, whose [raw] are the two
    lines. *)
Theorem bibliography_entries_keep_raw :
  (forall text : string,
     locate_section text = None -> identify_bibliography text = [])
  /\ (forall text : string,
        titled_section bib_titles text = None -> tail_section text = None ->
        identify_bibliography text = [])
  /\ (forall (text : string) (e : entry),
        In e (identify_bibliography text) ->
        exists (bib_section piece : string),
          locate_section text = Some bib_section
          /\ In piece (Re.split entry_break bib_section)
          /\ e !! "raw" = Some (Py.strip piece)
          /\ Py.strip piece <> EmptyString)
  /\ identify_bibliography "No sources are listed here." = []
  /\ map (fun e : entry => e !! "raw")
         (identify_bibliography two_references)
     = [Some "Smith, John. The Title. 2020.";
        Some "Doe, Jane. Other Work. 2019."].
Proof.
  split; [|split; [|split; [|split]]].
  - intros text Hnone. unfold identify_bibliography. by rewrite Hnone.
  - intros text Htitled Htail. unfold identify_bibliography, locate_section.
    by rewrite Htitled, Htail.
  - intros text e. unfold identify_bibliography.
    destruct (locate_section text) as [bib_section|]; [|done].
    intros Hin. apply in_map_iff in Hin as (entry_text & <- & Hin).
    apply entry_texts_spec in Hin as (Hne & piece & Hpiece & ->).
    exists bib_section, piece. by rewrite parse_entry_raw.
  - vm_compute. reflexivity.
  - vm_compute. reflexivity.
Qed.

Lemma bibliography_entries_keep_raw_witness :
  locate_section "No sources are listed here." = None
  /\ identify_bibliography "No sources are listed here." = [].
Proof.
  split; [reflexivity|].
  exact (proj1 bibliography_entries_keep_raw "No sources are listed here."
           eq_refl).
Defined.

End CitationFacts.

(* ================================================================== *)
(** ** Further properties: the matcher *)
(* ================================================================== *)

Section EngineFacts.

Import Re.

Lemma advance_cursor (s : string) (c c' : cursor) (a : ascii) :
  cursor_of s c -> advance c = Some (a, c') ->
  cursor_of s c' /\ pos c' = S (pos c).
Proof.
  unfold cursor_of, advance. intros Hc.
  destruct (rest c) as [|b t] eqn:Hrest; [done|].
  intros [= <- <-]. simpl in *. split; [lia|done].
Qed.

Lemma run_star (greedy : bool) (r : regex) (c : cursor) (g : captures)
    (k : cursor -> captures -> outcome) :
  run (Star greedy r) c g k
  = star_loop (run r) greedy k (S (String.length (rest c))) c g.
Proof. reflexivity. Qed.

(** Whatever [run] returns was returned by its continuation, called at a
    cursor of the subject that is not before the start, with as many
    capture slots as at the start. *)
Lemma run_calls_continuation (s : string) (n : nat) (r : regex) :
  forall (c : cursor) (g : captures)
         (k : cursor -> captures -> outcome) (o : cursor * captures),
    cursor_of s c -> List.length g = n -> run r c g k = Some o ->
    exists (c' : cursor) (g' : captures),
      cursor_of s c' /\ List.length g' = n /\ (pos c <= pos c')%nat
      /\ k c' g' = Some o.
Proof.
  induction r as [|negated items|r1 IH1 r2 IH2|r1 IH1 r2 IH2|greedy r1 IH1
                  |m r1 IH1| | |r1 IH1|items];
    intros c g k o Hc Hg Hrun;
    [simpl in Hrun|simpl in Hrun|simpl in Hrun|simpl in Hrun
    |rewrite run_star in Hrun|simpl in Hrun..].
  - by exists c, g.
  - destruct (advance c) as [[a c']|] eqn:Hadv; [|done].
    destruct (set_matches negated items a); [|done].
    destruct (advance_cursor s c c' a Hc Hadv) as [Hc' Hpos].
    exists c', g. repeat split; [done|done|lia|done].
  - apply IH1 in Hrun as (c1 & g1 & Hc1 & Hg1 & Hp1 & Hrun); [|done|done].
    apply IH2 in Hrun as (c2 & g2 & Hc2 & Hg2 & Hp2 & Hrun); [|done|done].
    exists c2, g2. repeat split; [done|done|lia|done].
  - destruct (run r1 c g k) as [o1|] eqn:H1.
    + injection Hrun as ->. by apply IH1 in H1.
    + by apply IH2 in Hrun.
  - remember (S (String.length (rest c))) as fuel eqn:Hfuel. clear Hfuel.
    revert c g Hc Hg Hrun.
    induction fuel as [|fuel IHf]; intros c g Hc Hg Hrun; simpl in Hrun.
    + by exists c, g.
    + set (again := run r1 c g _) in Hrun.
      assert (again = Some o ->
              exists (c' : cursor) (g' : captures),
                cursor_of s c' /\ List.length g' = n /\ (pos c <= pos c')%nat
                /\ k c' g' = Some o) as Hagain.
      { intros Ha. unfold again in Ha.
        apply IH1 in Ha as (c1 & g1 & Hc1 & Hg1 & Hp1 & Ha); [|done|done].
        destruct (pos c <? pos c1)%nat; [|done].
        apply IHf in Ha as (c2 & g2 & Hc2 & Hg2 & Hp2 & Ha); [|done|done].
        exists c2, g2. repeat split; [done|done|lia|done]. }
      destruct greedy.
      * destruct again as [o1|]; [injection Hrun as ->; by apply Hagain|].
        by exists c, g.
      * destruct (k c g) as [o1|] eqn:Hk; [|by apply Hagain].
        injection Hrun as ->. by exists c, g.
  - apply IH1 in Hrun as (c1 & g1 & Hc1 & Hg1 & Hp1 & Hrun); [|done|done].
    exists c1, (<[m := Some (pos c, pos c1)]> g1).
    repeat split; [done| |done|done].
    etrans; [apply length_insert|done].
  - destruct (pos c =? 0)%nat; [|done]. by exists c, g.
  - destruct (rest c) as [|a [|b t]]; [by exists c, g| |done].
    destruct (Ascii.eqb a Py.newline); [|done]. by exists c, g.
  - destruct (run r1 c g (fun c' g' => Some (c', g'))) as [[c1 g1]|] eqn:H1;
      [|done].
    apply IH1 in H1 as (c2 & g2 & _ & Hg2 & _ & [= <- <-]); [|done|done].
    exists c, g2. by repeat split.
  - destruct (before c) as [a|]; [|by exists c, g].
    match type of Hrun with
    | context [if ?b then _ else _] => destruct b; [done|]
    end.
    by exists c, g.
Qed.

Lemma cursor_within (s : string) (c : cursor) :
  cursor_of s c -> (pos c <= String.length s)%nat.
Proof. unfold cursor_of. lia. Qed.

Lemma match_at_spec (n : nat) (r : regex) (s : string) (c : cursor)
    (min_end : nat) (m : match_) (c' : cursor) :
  cursor_of s c -> match_at n r s c min_end = Some (m, c') ->
  match_of s n m /\ cursor_of s c' /\ m_start m = pos c /\ m_end m = pos c'.
Proof.
  intros Hc. unfold match_at.
  destruct (run r c _ _) as [[c1 g1]|] eqn:Hrun; [|done].
  intros [= <- <-].
  apply (run_calls_continuation s n) in Hrun
    as (c2 & g2 & Hc2 & Hg2 & Hp2 & Hk); [|done|by rewrite length_replicate].
  destruct (min_end <=? pos c2)%nat; [|done]. injection Hk as <- <-.
  pose proof (cursor_within s c2 Hc2).
  repeat split; simpl; try done.
Qed.

Lemma find_from_spec (fuel n : nat) (r : regex) (s : string) :
  forall (c : cursor) (min_end : nat) (m : match_) (c' : cursor),
    cursor_of s c -> find_from fuel n r s c min_end = Some (m, c') ->
    match_of s n m /\ cursor_of s c' /\ (pos c <= m_start m)%nat
    /\ m_end m = pos c'.
Proof.
  induction fuel as [|fuel IH]; intros c min_end m c' Hc; simpl.
  - destruct (match_at n r s c min_end) as [[m1 c1]|] eqn:Hat; [|done].
    intros [= <- <-]. apply match_at_spec in Hat as (? & ? & ? & ?); [|done].
    split; [done|split; [done|split; [lia|done]]].
  - destruct (match_at n r s c min_end) as [[m1 c1]|] eqn:Hat.
    + intros [= <- <-].
      apply match_at_spec in Hat as (? & ? & ? & ?); [|done].
      split; [done|split; [done|split; [lia|done]]].
    + destruct (advance c) as [[a c1]|] eqn:Hadv; [|done].
      destruct (advance_cursor s c c1 a Hc Hadv) as [Hc1 Hp1].
      intros Hfind. apply IH in Hfind as (? & ? & ? & ?); [|done].
      split; [done|split; [done|split; [lia|done]]].
Qed.

Lemma iter_from_spec (fuel n : nat) (r : regex) (s : string) :
  forall (c : cursor) (min_end : nat),
    cursor_of s c ->
    Forall (fun m => match_of s n m /\ (pos c <= m_start m)%nat)
           (iter_from fuel n r s c min_end).
Proof.
  induction fuel as [|fuel IH]; intros c min_end Hc; simpl; [constructor|].
  destruct (find_from _ n r s c min_end) as [[m c']|] eqn:Hfind;
    [|constructor].
  apply find_from_spec in Hfind as (Hm & Hc' & Hstart & Hend); [|done].
  constructor; [done|].
  eapply Forall_impl; [apply IH, Hc'|].
  intros m' [Hm' Hs']. split; [done|]. destruct Hm as (_ & ? & _). simpl in *.
  lia.
Qed.

Lemma start_cursor (s : string) : cursor_of s (start_of s).
Proof. unfold cursor_of. simpl. lia. Qed.

Lemma finditer_matches (n : nat) (r : regex) (s : string) (m : match_) :
  In m (Re.finditer n r s) -> match_of s n m.
Proof.
  intros Hin. pose proof (iter_from_spec (2 * String.length s + 3) n r s
                            (start_of s) 0 (start_cursor s)) as Hall.
  rewrite Forall_forall in Hall. apply list_elem_of_In in Hin.
  by destruct (Hall m Hin).
Qed.

Lemma search_match (n : nat) (r : regex) (s : string) (m : match_) :
  Re.search n r s = Some m -> match_of s n m.
Proof.
  unfold search.
  destruct (find_from _ n r s (start_of s) 0) as [[m1 c1]|] eqn:Hfind; [|done].
  intros [= <-]. by apply find_from_spec in Hfind as (? & _); [|apply start_cursor].
Qed.

End EngineFacts.

(* ================================================================== *)
(** ** Further properties: the page layout *)
(* ================================================================== *)

Section PaginationFacts.

Import FormatOptimizer.




End PaginationFacts.

Section MarginSetterFacts.

Import FormatOptimizer.
Local Open Scope Q_scope.

Lemma convert_known (x : Q) (unit : string) :
  known_unit unit -> exists y : Q, convert (Some x) unit = Ok (Some y).
Proof.
  intros [-> | [-> | [-> | ->]]]; eexists; reflexivity.
Qed.

Lemma convert_unknown (x : Q) (unit : string) :
  ~ known_unit unit -> convert (Some x) unit = Raise (KeyError unit).
Proof.
  intros Hunit. unfold convert.
  destruct (String.eqb_spec unit "inch") as [->|_];
    [destruct Hunit; by left|].
  destruct (String.eqb_spec unit "mm") as [->|_];
    [destruct Hunit; by right; left|].
  destruct (String.eqb_spec unit "pixel") as [->|_];
    [destruct Hunit; by right; right; left|].
  destruct (String.eqb_spec unit "point") as [->|_];
    [destruct Hunit; by right; right; right|].
  done.
Qed.

(** X2: [set_margins] returns for each of the units inch, mm, pixel and
    point; with any other unit it raises [KeyError] as soon as one side is
    given, and changes nothing when no side is given. [set_page_size],
    with the same unknown unit, takes the sizes as points. *)
Theorem set_margins_rejects_unknown_units
    (self : t) (top_ right_ bottom_ left_ : option Q) (unit : string) :
  (known_unit unit ->
   exists self' : t, set_margins self top_ right_ bottom_ left_ unit = Ok self')
  /\ (~ known_unit unit ->
      (top_ = None /\ right_ = None /\ bottom_ = None /\ left_ = None ->
       set_margins self top_ right_ bottom_ left_ unit
       = Ok (_calculate_content_area (page_width self) (page_height self)
               (Margins (top (margins self)) (right (margins self))
                        (bottom (margins self)) (left (margins self)))))
      /\ (~ (top_ = None /\ right_ = None /\ bottom_ = None /\ left_ = None) ->
          set_margins self top_ right_ bottom_ left_ unit
          = Raise (KeyError unit))
      /\ forall width height : Q,
           set_page_size self width height unit
           = set_page_size self width height "point").
Proof.
  split.
  - intros Hunit. unfold set_margins.
    destruct top_ as [x1|]; [destruct (convert_known x1 unit Hunit) as [y1 ->]|];
    (destruct right_ as [x2|];
       [destruct (convert_known x2 unit Hunit) as [y2 ->]|]);
    (destruct bottom_ as [x3|];
       [destruct (convert_known x3 unit Hunit) as [y3 ->]|]);
    (destruct left_ as [x4|];
       [destruct (convert_known x4 unit Hunit) as [y4 ->]|]);
    eexists; reflexivity.
  - intros Hunit. split; [|split].
    + by intros (-> & -> & -> & ->).
    + intros Hsome. unfold set_margins.
      destruct top_ as [x1|]; [by rewrite convert_unknown|].
      destruct right_ as [x2|]; [by rewrite convert_unknown|].
      destruct bottom_ as [x3|]; [by rewrite convert_unknown|].
      destruct left_ as [x4|]; [by rewrite convert_unknown|].
      by destruct Hsome.
    + intros width height. unfold set_page_size.
      destruct (String.eqb_spec unit "inch") as [->|_];
        [destruct Hunit; by left|].
      destruct (String.eqb_spec unit "mm") as [->|_];
        [destruct Hunit; by right; left|].
      destruct (String.eqb_spec unit "pixel") as [->|_];
        [destruct Hunit; by right; right; left|].
      done.
Qed.

Lemma set_margins_rejects_unknown_units_witness :
  ~ known_unit "cm"
  /\ set_margins init (Some 2) None None None "cm" = Raise (KeyError "cm")
  /\ set_page_size init 21 29.7 "cm" = set_page_size init 21 29.7 "point".
Proof.
  assert (~ known_unit "cm") as Hunit
    by (intros [H|[H|[H|H]]]; discriminate H).
  split; [exact Hunit|].
  destruct (proj2 (set_margins_rejects_unknown_units init (Some 2) None None
                     None "cm") Hunit) as (_ & Hraise & Hsize).
  split; [|exact (Hsize 21 29.7)].
  apply Hraise. intros (H & _). discriminate H.
Defined.

(** X3: two calls of [set_margins] in points are one call where each side
    takes the value of the second call if it gives one, else that of the
    first call, else stays. *)
Theorem set_margins_last_write_wins
    (self : t) (t1 r1 b1 l1 t2 r2 b2 l2 : option Q) :
  (self' ← set_margins self t1 r1 b1 l1 "point";
   set_margins self' t2 r2 b2 l2 "point")
  = set_margins self (t2 ∪ t1) (r2 ∪ r1) (b2 ∪ b1) (l2 ∪ l1) "point".
Proof.
  destruct t1, r1, b1, l1, t2, r2, b2, l2; reflexivity.
Qed.

(** X8: [calculate_optimal_margins] is idempotent on an optimizer with
    the font size 12 that every optimizer has: a second call with the same
    target returns the same object and margins. *)
Theorem optimal_margins_settle
    (self self' : t) (m : margins_t) (target_line_length : Q) :
  default_font_size self = 12 ->
  calculate_optimal_margins self target_line_length = Ok (self', m) ->
  calculate_optimal_margins self' target_line_length = Ok (self', m)
  /\ m = margins self'.
Proof.
  intros Hfont. rewrite !calculate_optimal_margins_eq. cbv zeta.
  unfold solved_margin. rewrite Hfont. intros [= <- <-].
  split; reflexivity.
Qed.

Lemma optimal_margins_settle_witness :
  exists self' : t,
    calculate_optimal_margins init 66 = Ok (self', margins self')
    /\ calculate_optimal_margins self' 66 = Ok (self', margins self').
Proof.
  eexists. split; [reflexivity|].
  exact (proj1 (optimal_margins_settle init _ _ 66 eq_refl eq_refl)).
Defined.

(** X9: [setup_optimization] without precision returns a fresh
    optimizer; with precision its calls of [set_page_size] and
    [set_margins] change nothing, and the result is that of
    [calculate_optimal_margins] for 66 characters on a fresh optimizer:
    side margins of 68.4 points, 66 characters per line, 27 lines per
    page. *)
Theorem setup_optimization_only_solves_margins :
  Cli.setup_optimization false = Ok init
  /\ Cli.setup_optimization true
     = (r ← calculate_optimal_margins init 66; Ok (fst r))
  /\ exists optimizer : t,
       Cli.setup_optimization true = Ok optimizer
       /\ left (margins optimizer) == 68.4
       /\ right (margins optimizer) == 68.4
       /\ top (margins optimizer) == 72
       /\ bottom (margins optimizer) == 72
       /\ content_width optimizer == 475.2
       /\ chars_per_line optimizer = 66%Z
       /\ lines_per_page optimizer = 27%Z.
Proof.
  split; [reflexivity|]. split; [vm_compute; reflexivity|].
  eexists. split; [vm_compute; reflexivity|].
  repeat split; vm_compute; reflexivity.
Qed.

End MarginSetterFacts.

Section MetricFacts.

Import FormatOptimizer.
Local Open Scope Q_scope.







End MetricFacts.

Section LineFacts.

Import FormatOptimizer.

Lemma no_space_rev_onto (s acc : string) :
  no_space s = true -> no_space acc = true ->
  no_space (Py.rev_onto s acc) = true.
Proof.
  revert acc. induction s as [|a s IH]; intros acc Hs Hacc; simpl; [done|].
  simpl in Hs. apply andb_true_iff in Hs as [Ha Hs].
  apply IH; [done|]. simpl. by rewrite Ha.
Qed.

Lemma split_ws_from_words (s cur : string) :
  no_space cur = true -> Forall is_word (Py.split_ws_from s cur).
Proof.
  revert cur. induction s as [|a s IH]; intros cur Hcur; simpl.
  - destruct cur as [|b cur]; [constructor|].
    apply Forall_singleton. split; [by apply rev_nonempty|].
    by apply no_space_rev_onto.
  - destruct (Py.isspace a) eqn:Ha.
    + destruct cur as [|b cur]; [by apply IH|].
      apply Forall_cons_2; [|by apply IH].
      split; [by apply rev_nonempty|]. by apply no_space_rev_onto.
    + apply IH. simpl. by rewrite Ha.
Qed.

Lemma split_ws_words (text : string) : Forall is_word (Py.split_ws text).
Proof. by apply split_ws_from_words. Qed.

Lemma rev_onto_rev_onto (s acc tail : string) :
  Py.rev_onto (Py.rev_onto s acc) tail = Py.rev_onto acc (s +:+ tail).
Proof.
  revert acc tail. induction s as [|a s IH]; intros acc tail; [done|].
  change (Py.rev_onto (String a s) acc) with (Py.rev_onto s (String a acc)).
  by rewrite IH.
Qed.

Lemma string_append_empty (s : string) : s +:+ EmptyString = s.
Proof.
  induction s as [|a s IH]; [done|].
  change (String a (s +:+ EmptyString) = String a s). by rewrite IH.
Qed.

Lemma py_rev_rev (s : string) : Py.rev (Py.rev s) = s.
Proof. unfold Py.rev. rewrite rev_onto_rev_onto. apply string_append_empty. Qed.

(** Reading a word, then whatever follows it. *)
Lemma split_ws_from_word (w s cur : string) :
  no_space w = true ->
  Py.split_ws_from (w +:+ s) cur = Py.split_ws_from s (Py.rev_onto w cur).
Proof.
  revert cur. induction w as [|a w IH]; intros cur Hw; [done|].
  simpl in Hw. apply andb_true_iff in Hw as [Ha Hw].
  apply negb_true_iff in Ha.
  change (String a w +:+ s) with (String a (w +:+ s)).
  simpl. rewrite Ha. by apply IH.
Qed.

Lemma split_ws_join (words : list string) :
  Forall is_word words -> Py.split_ws (Py.join " " words) = words.
Proof.
  induction words as [|w words IH]; intros Hall; [done|].
  apply Forall_cons_1 in Hall as [[Hne Hw] Hall].
  unfold Py.split_ws in *. destruct words as [|w' words].
  - change (Py.join " " [w]) with w. rewrite <- (string_append_empty w) at 1.
    rewrite split_ws_from_word by done. simpl.
    destruct (Py.rev_onto w EmptyString) as [|b t] eqn:Hrev.
    + by destruct (rev_nonempty w Hne).
    + rewrite <- Hrev. fold (Py.rev w). by rewrite (py_rev_rev w).
  - change (Py.join " " (w :: w' :: words))
      with (w +:+ String " " (Py.join " " (w' :: words))).
    rewrite split_ws_from_word by done. simpl.
    destruct (Py.rev_onto w EmptyString) as [|b t] eqn:Hrev.
    + by destruct (rev_nonempty w Hne).
    + rewrite <- Hrev. fold (Py.rev w). rewrite (py_rev_rev w). f_equal.
      by apply IH.
Qed.

(** What [calculate_line_breaks] returns is what its loop makes of the
    words of the text at its line length. *)
Lemma line_breaks_returned (self : t) (text : string) (font_size : option Q)
    (lines : list string) :
  calculate_line_breaks self text font_size = Ok lines ->
  lines = wrap_words (line_length self font_size) (Py.split_ws text).
Proof.
  unfold calculate_line_breaks, line_length.
  destruct (Qeq_bool _ 0); [done|]. by intros [= <-].
Qed.

Lemma wrap_words_split_back (text : string) (chars_per_line : Z) :
  flat_map Py.split_ws (wrap_words chars_per_line (Py.split_ws text))
  = Py.split_ws text.
Proof.
  destruct (wrap_words_groups chars_per_line (Py.split_ws text))
    as (groups & Hconcat & ->).
  pose proof (split_ws_words text) as Hwords. rewrite <- Hconcat in *.
  clear Hconcat. induction groups as [|g groups IH]; [done|].
  simpl in *. apply Forall_app in Hwords as [Hg Hgroups].
  by rewrite split_ws_join, IH.
Qed.

(** X5: splitting the lines [calculate_line_breaks] returns at whitespace
    gives back the words of the text, in order: no word is lost, repeated,
    split or merged, whatever the optimizer and the font size. *)
Theorem lines_split_back_into_the_words
    (self : t) (text : string) (font_size : option Q) (lines : list string) :
  calculate_line_breaks self text font_size = Ok lines ->
  flat_map Py.split_ws lines = Py.split_ws text.
Proof.
  intros Hlines. rewrite (line_breaks_returned _ _ _ _ Hlines).
  apply wrap_words_split_back.
Qed.

Lemma lines_split_back_into_the_words_witness :
  calculate_line_breaks init "the quick brown fox" None
  = Ok ["the quick brown fox"]
  /\ calculate_line_breaks init "the quick brown fox" (Some 80%Q)
     = Ok ["the quick"; "brown fox"]
  /\ flat_map Py.split_ws ["the quick"; "brown fox"]
     = Py.split_ws "the quick brown fox".
Proof.
  assert (calculate_line_breaks init "the quick brown fox" (Some 80%Q)
          = Ok ["the quick"; "brown fox"]) as Hlines
    by (vm_compute; reflexivity).
  split; [vm_compute; reflexivity|]. split; [exact Hlines|].
  exact (lines_split_back_into_the_words init "the quick brown fox"
           (Some 80%Q) ["the quick"; "brown fox"] Hlines).
Defined.

Lemma wrap_step_bounded (cpl : Z) (words : list string) (st : wrap_state)
    (word : string) :
  wrap_bounded cpl words st -> word <> EmptyString -> In word words ->
  wrap_bounded cpl words (wrap_step cpl st word).
Proof.
  intros (Hinv & Hlines & Hcur) Hne Hin.
  split; [by apply wrap_step_inv|].
  pose proof (wrap_inv_separator st Hinv) as Hsep.
  destruct Hinv as [_ Hlen]. unfold wrap_step.
  destruct (Z.ltb_spec cpl (current_length st + Py.len word
                            + (if 0 <? current_length st then 1 else 0)))
    as [Hover|Hfit]; simpl.
  - split; [|by right]. apply Forall_app. split; [done|].
    by apply Forall_singleton.
  - split; [done|]. left. rewrite len_join_snoc, <- Hlen, <- Hsep. lia.
Qed.

Lemma wrap_fold_bounded (cpl : Z) (words ws : list string) (st : wrap_state) :
  wrap_bounded cpl words st ->
  Forall (fun w => w <> EmptyString) ws -> (forall w, In w ws -> In w words) ->
  wrap_bounded cpl words (fold_left (wrap_step cpl) ws st).
Proof.
  revert st. induction ws as [|w ws IH]; intros st Hst Hne Hin; [done|].
  apply Forall_cons_1 in Hne as [Hw Hne]. simpl. apply IH; [|done|].
  - apply wrap_step_bounded; [done|done|]. apply Hin. by left.
  - intros w' Hw'. apply Hin. by right.
Qed.

Lemma wrap_lines_bounded
    (text : string) (chars_per_line : Z) (line : string) :
  0 <= chars_per_line ->
  In line (wrap_words chars_per_line (Py.split_ws text)) ->
  Py.len line <= chars_per_line
  \/ (In line (Py.split_ws text) /\ chars_per_line < Py.len line).
Proof.
  intros Hcpl Hline.
  assert (line_fits chars_per_line (Py.split_ws text) line) as [Hfit|Hword].
  { pose proof (wrap_fold_bounded chars_per_line (Py.split_ws text)
                  (Py.split_ws text) (Wrap [] [] 0)) as Hfold.
    destruct Hfold as (_ & Hlines & Hcur).
    - split; [split; [constructor|done]|]. split; [constructor|]. by left.
    - apply split_ws_nonempty.
    - done.
    - unfold wrap_words in Hline. rewrite Forall_forall in Hlines.
      destruct (current_line _) as [|w ws] eqn:Hcurrent.
      + apply Hlines. by apply list_elem_of_In.
      + apply in_app_or in Hline as [Hline|[<-|[]]]; [|done].
        apply Hlines. by apply list_elem_of_In. }
  - by left.
  - destruct (Z.le_gt_cases (Py.len line) chars_per_line); [by left|].
    right. split; [done|lia].
Qed.

(** X4: when the line length [calculate_line_breaks] computes from the
    content width and the font size is not negative, every line it returns
    is at most that long, or is one single word of the text that is
    longer. *)
Theorem lines_fit_or_hold_one_word
    (self : t) (text : string) (font_size : option Q) (lines : list string)
    (line : string) :
  calculate_line_breaks self text font_size = Ok lines ->
  0 <= line_length self font_size ->
  In line lines ->
  Py.len line <= line_length self font_size
  \/ (In line (Py.split_ws text) /\ line_length self font_size < Py.len line).
Proof.
  intros Hlines Hlength Hline.
  rewrite (line_breaks_returned _ _ _ _ Hlines) in Hline.
  by apply wrap_lines_bounded.
Qed.

Lemma lines_fit_or_hold_one_word_witness :
  calculate_line_breaks init "a typewriter of old" (Some 72%Q)
  = Ok ["a"; "typewriter"; "of old"]
  /\ line_length init (Some 72%Q) = 10
  /\ (Py.len "typewriter" <= line_length init (Some 72%Q)
      \/ (In "typewriter" (Py.split_ws "a typewriter of old")
          /\ line_length init (Some 72%Q) < Py.len "typewriter")).
Proof.
  assert (calculate_line_breaks init "a typewriter of old" (Some 72%Q)
          = Ok ["a"; "typewriter"; "of old"]) as Hlines
    by (vm_compute; reflexivity).
  assert (line_length init (Some 72%Q) = 10) as Hlength
    by (vm_compute; reflexivity).
  split; [exact Hlines|]. split; [exact Hlength|].
  apply (lines_fit_or_hold_one_word init "a typewriter of old" (Some 72%Q)
           ["a"; "typewriter"; "of old"] "typewriter" Hlines).
  - rewrite Hlength. lia.
  - right. left. reflexivity.
Defined.




Lemma wrap_fold_none_fits (cpl : Z) (ws : list string) :
  forall (flushed : list string) (w : string),
    cpl < Py.len w -> (forall w', In w' ws -> cpl < Py.len w') ->
    wrap_finish (fold_left (wrap_step cpl) ws (Wrap flushed [w] (Py.len w)))
    = flushed ++ w :: ws.
Proof.
  induction ws as [|w' ws IH]; intros flushed w Hw Hws; [done|].
  cbn [fold_left]. unfold wrap_step at 2. cbn [current_length current_line lines].
  pose proof (len_nonneg w').
  destruct (Z.ltb_spec cpl (Py.len w + Py.len w'
                            + (if 0 <? Py.len w then 1 else 0))) as [_|Hfit].
  - rewrite IH; [|apply Hws; by left|intros; apply Hws; by right].
    change (Py.join " " [w]) with w. by rewrite <- app_assoc.
  - destruct (0 <? Py.len w); lia.
Qed.

Lemma wrap_words_none_fits (chars_per_line : Z) (word : string)
    (words : list string) :
  (forall w, In w (word :: words) -> chars_per_line < Py.len w) ->
  wrap_words chars_per_line (word :: words) = EmptyString :: word :: words.
Proof.
  intros Hlong. unfold wrap_words. cbn [fold_left].
  assert (wrap_step chars_per_line (Wrap [] [] 0) word
          = Wrap [EmptyString] [word] (Py.len word)) as ->.
  { unfold wrap_step. cbn.
    assert (chars_per_line < Py.len word) as Hw by (apply Hlong; by left).
    destruct (Z.ltb_spec chars_per_line (0 + Py.len word + 0)); [done|lia]. }
  apply (wrap_fold_none_fits chars_per_line words [EmptyString] word).
  - apply Hlong. by left.
  - intros w' Hw'. apply Hlong. by right.
Qed.

(** X22: when every word of the text is longer than the line length
    [calculate_line_breaks] computes (any text, when that length is
    negative, as it is for a negative font size), the result is an empty
    line followed by the words of the text, one per line. *)
Theorem no_word_fits
    (self : t) (text : string) (font_size : option Q) (lines : list string) :
  calculate_line_breaks self text font_size = Ok lines ->
  Py.split_ws text <> [] ->
  (forall w, In w (Py.split_ws text) ->
             line_length self font_size < Py.len w) ->
  lines = EmptyString :: Py.split_ws text.
Proof.
  intros Hlines Hwords Hlong. rewrite (line_breaks_returned _ _ _ _ Hlines).
  destruct (Py.split_ws text) as [|word words]; [done|].
  by apply wrap_words_none_fits.
Qed.

Lemma no_word_fits_witness :
  calculate_line_breaks init "to be or" (Some (-12)%Q)
  = Ok [EmptyString; "to"; "be"; "or"]
  /\ line_length init (Some (-12)%Q) = -65
  /\ [EmptyString; "to"; "be"; "or"] = EmptyString :: Py.split_ws "to be or".
Proof.
  assert (calculate_line_breaks init "to be or" (Some (-12)%Q)
          = Ok [EmptyString; "to"; "be"; "or"]) as Hlines
    by (vm_compute; reflexivity).
  assert (line_length init (Some (-12)%Q) = -65) as Hlength
    by (vm_compute; reflexivity).
  split; [exact Hlines|]. split; [exact Hlength|].
  apply (no_word_fits init "to be or" (Some (-12)%Q)
           [EmptyString; "to"; "be"; "or"] Hlines).
  - discriminate.
  - intros w _. rewrite Hlength. pose proof (len_nonneg w). lia.
Defined.

(** From a line that holds words, every line added is not empty. *)
Lemma wrap_fold_adds_nonempty (cpl : Z) (ws : list string) :
  forall st : wrap_state,
    wrap_inv st -> current_line st <> [] ->
    Forall (fun w => w <> EmptyString) ws ->
    exists added : list string,
      Forall (fun line => line <> EmptyString) added
      /\ wrap_finish (fold_left (wrap_step cpl) ws st) = lines st ++ added.
Proof.
  induction ws as [|w ws IH]; intros st Hinv Hcur Hws.
  - exists [Py.join " " (current_line st)]. split.
    + apply Forall_singleton. intros Hempty.
      pose proof (len_join_pos (current_line st) (proj1 Hinv) Hcur) as Hpos.
      rewrite Hempty in Hpos. by apply Z.lt_irrefl in Hpos.
    + simpl. unfold wrap_finish. by destruct (current_line st).
  - apply Forall_cons_1 in Hws as [Hw Hws]. cbn [fold_left].
    destruct (IH (wrap_step cpl st w)) as (added & Hadded & Heq);
      [by apply wrap_step_inv| |done|].
    { unfold wrap_step. destruct (cpl <? _); simpl; [done|].
      by destruct (current_line st). }
    rewrite Heq. unfold wrap_step. destruct (cpl <? _); simpl.
    + exists (Py.join " " (current_line st) :: added). split.
      * apply Forall_cons_2; [|done]. intros Hempty.
        pose proof (len_join_pos (current_line st) (proj1 Hinv) Hcur) as Hpos.
        rewrite Hempty in Hpos. by apply Z.lt_irrefl in Hpos.
      * by rewrite <- app_assoc.
    + by exists added.
Qed.

Lemma wrap_words_first_empty
    (text : string) (chars_per_line : Z) (word : string)
    (words : list string) :
  Py.split_ws text = word :: words ->
  exists others : list string,
    Forall (fun line => line <> EmptyString) others
    /\ wrap_words chars_per_line (Py.split_ws text)
       = if chars_per_line <? Py.len word
         then EmptyString :: others
         else others.
Proof.
  intros Hsplit. pose proof (split_ws_nonempty text) as Hne.
  rewrite Hsplit in *. apply Forall_cons_1 in Hne as [Hword Hwords].
  unfold wrap_words. cbn [fold_left].
  assert (wrap_step chars_per_line (Wrap [] [] 0) word
          = Wrap (if chars_per_line <? Py.len word then [EmptyString] else [])
                 [word] (Py.len word)) as ->.
  { unfold wrap_step. cbn. rewrite !Z.add_0_r, !Z.add_0_l.
    by destruct (chars_per_line <? Py.len word). }
  destruct (wrap_fold_adds_nonempty chars_per_line words
              (Wrap (if chars_per_line <? Py.len word
                     then [EmptyString] else []) [word] (Py.len word)))
    as (added & Hadded & Heq); [|done|done|].
  { split; [by apply Forall_singleton|done]. }
  exists added. split; [done|].
  unfold wrap_finish in Heq. rewrite Heq. simpl.
  by destruct (chars_per_line <? Py.len word).
Qed.

(** X20: the lines [calculate_line_breaks] returns for a text that has a
    word start with an empty line exactly when the first word of the text
    is longer than the line length; no other line is empty. *)
Theorem only_the_first_line_can_be_empty
    (self : t) (text : string) (font_size : option Q) (lines : list string)
    (word : string) (words : list string) :
  calculate_line_breaks self text font_size = Ok lines ->
  Py.split_ws text = word :: words ->
  exists others : list string,
    Forall (fun line => line <> EmptyString) others
    /\ lines = if line_length self font_size <? Py.len word
               then EmptyString :: others
               else others.
Proof.
  intros Hlines Hsplit. rewrite (line_breaks_returned _ _ _ _ Hlines).
  by apply (wrap_words_first_empty text _ word words).
Qed.

Lemma only_the_first_line_can_be_empty_witness :
  calculate_line_breaks init "typewriter of old" (Some 80%Q)
  = Ok [EmptyString; "typewriter"; "of old"]
  /\ Py.split_ws "typewriter of old" = ["typewriter"; "of"; "old"]
  /\ exists others : list string,
       Forall (fun line => line <> EmptyString) others
       /\ [EmptyString; "typewriter"; "of old"]
          = if line_length init (Some 80%Q) <? Py.len "typewriter"
            then EmptyString :: others
            else others.
Proof.
  assert (calculate_line_breaks init "typewriter of old" (Some 80%Q)
          = Ok [EmptyString; "typewriter"; "of old"]) as Hlines
    by (vm_compute; reflexivity).
  split; [exact Hlines|]. split; [reflexivity|].
  exact (only_the_first_line_can_be_empty init "typewriter of old"
           (Some 80%Q) [EmptyString; "typewriter"; "of old"] "typewriter"
           ["of"; "old"] Hlines eq_refl).
Defined.

End LineFacts.

Section HeadingFacts.

Import FormatOptimizer.

(** The loop over the page breaks either leaves the heading where it is,
    no break stranding it, or puts it on the line before a break that
    strands it. *)
Lemma place_cases (lpp : Z) (page_breaks : list Z) (h : Z) :
  let p := place lpp page_breaks h (h / lpp + 1) in
  (position p = h /\ page p = h / lpp + 1
   /\ forall b, In b page_breaks -> ~ stranded h b)
  \/ (exists b, In b page_breaks /\ stranded h b
                /\ position p = b - 1 /\ page p = (b - 1) / lpp + 1).
Proof.
  induction page_breaks as [|b bs IH]; simpl.
  - left. by repeat split.
  - destruct ((0 <? h - b) && (h - b <? 3)) eqn:Htest.
    + apply stranded_test in Htest. right. exists b. simpl.
      repeat split; try done; [by left|apply Htest|apply Htest].
    + assert (~ stranded h b) as Hnot by (rewrite <- stranded_test, Htest; done).
      destruct IH as [(Hpos & Hpage & Hfree)|(b' & Hin & Hs & Hpos & Hpage)].
      * left. repeat split; [done|done|]. intros b' [<-|Hb']; [done|by apply Hfree].
      * right. exists b'. repeat split; try done; [by right|apply Hs|apply Hs].
Qed.

(** X7: with at least four lines per page, every heading
    [optimize_heading_placement] returns is at most three lines above
    where it was and never below, its page is the one of its final line,
    and no page break of the text strands it: the result needs no second
    pass. *)
Theorem placed_headings_are_not_stranded
    (self : t) (headings_positions : list Z) (text_length : Z) :
  4 <= lines_per_page self ->
  exists (page_count : Z) (placed : list placement),
    calculate_pagination self text_length = Ok page_count
    /\ optimize_heading_placement self headings_positions text_length
       = Ok placed
    /\ forall (n : nat) (h : Z) (p : placement),
         headings_positions !! n = Some h -> placed !! n = Some p ->
         h - 3 <= position p <= h
         /\ page p = position p / lines_per_page self + 1
         /\ forall i : Z,
              1 <= i < page_count ->
              ~ stranded (position p) (i * lines_per_page self).
Proof.
  intros Hlpp. unfold optimize_heading_placement, calculate_pagination.
  destruct (Z.eqb_spec (lines_per_page self) 0) as [H0|_]; [lia|].
  set (lpp := lines_per_page self) in *. set (page_count := Qceiling _).
  exists page_count. eexists. split; [done|]. split; [done|].
  intros n h p Hn Hp. rewrite list_lookup_fmap, Hn in Hp. cbn in Hp.
  injection Hp as <-. clearbody page_count lpp.
  destruct (place_cases lpp (page_breaks_of lpp page_count) h)
    as [(Hpos & Hpage & Hfree)|(b & Hin & Hs & Hpos & Hpage)].
  - rewrite Hpos, Hpage. split; [lia|]. split; [done|].
    intros i Hi. apply Hfree, in_page_breaks. by exists i.
  - rewrite Hpos, Hpage. unfold stranded in Hs. split; [lia|]. split; [done|].
    apply in_page_breaks in Hin as (j & Hj & ->).
    intros i Hi. unfold stranded.
    destruct (Z_le_gt_dec j i) as [Hle|Hgt].
    + assert (j * lpp <= i * lpp) by (apply Z.mul_le_mono_nonneg_r; lia). lia.
    + assert ((i + 1) * lpp <= j * lpp)
        by (apply Z.mul_le_mono_nonneg_r; lia).
      lia.
Qed.

Lemma placed_headings_are_not_stranded_witness :
  4 <= lines_per_page full_height_page
  /\ exists (page_count : Z) (placed : list placement),
       calculate_pagination full_height_page 100 = Ok page_count
       /\ optimize_heading_placement full_height_page [34; 70] 100 = Ok placed.
Proof.
  split; [vm_compute; discriminate|].
  destruct (placed_headings_are_not_stranded full_height_page [34; 70] 100)
    as (page_count & placed & H1 & H2 & _); [vm_compute; discriminate|].
  exists page_count, placed. split; [exact H1|exact H2].
Defined.

(** With three lines per page the line before a break is itself stranded
    by the break before. *)
Lemma short_pages_strand_again :
  exists self : t,
    set_margins init (Some 360%Q) None (Some 360%Q) None "point" = Ok self
    /\ lines_per_page self = 3
    /\ optimize_heading_placement self [7] 12 = Ok [Placement 5 2]
    /\ stranded 5 (1 * 3).
Proof.
  eexists. split; [vm_compute; reflexivity|].
  repeat split; vm_compute; reflexivity.
Qed.

End HeadingFacts.

(* ================================================================== *)
(** ** Further properties: the citation processor *)
(* ================================================================== *)

Section ConverterFacts.

Import CitationProcessor.

Lemma citations_of_style_known (sent_tokenize : string -> list string)
    (text s : string) :
  In s ["mla"; "apa"; "chicago"] ->
  let r := extract_citations sent_tokenize text in
  let cs := flat_map (emitted_styles citation_patterns s)
              (sent_tokenize text) in
  od_get s (citations r) = Some cs
  /\ od_get s (style_counts r) = Some (Z.of_nat (List.length cs)).
Proof.
  intros Hs r cs.
  pose proof (view_extract sent_tokenize text s) as Hv. cbv zeta in Hv.
  rewrite (initial_view s Hs) in Hv. fold r in Hv.
  destruct (od_get s (style_counts r)) as [n|]; [|done].
  destruct (od_get s (citations r)) as [cs'|]; [|done].
  cbn in Hv. by injection Hv as -> ->.
Qed.

Lemma made_citation_fields (type_name sentence : string) (m : Re.match_) :
  let c := make_citation type_name sentence m in
  c !! "groups" = Some (VTuple (Re.groups m))
  /\ c !! "text" = Some (VStr (Re.group0 m))
  /\ c !! "type" = Some (VStr type_name).
Proof. by repeat split. Qed.

Lemma finditer_groups (p : pattern) (sentence : string) (m : Re.match_) :
  In m (finditer p sentence) -> List.length (Re.groups m) = groups_of p.
Proof.
  intros Hin. apply finditer_matches in Hin as (_ & _ & Hlen).
  unfold Re.groups. by rewrite length_map.
Qed.

(** With its three variables assigned and a citation that has a kind and
    a text, the second half of [convert_citation] returns a string. *)
Lemma render_returns_text (c : citation) (to_style type_name text : string)
    (a y p : option string) :
  c !! "type" = Some (VStr type_name) -> c !! "text" = Some (VStr text) ->
  exists s : string,
    render c to_style (Locals (Some a) (Some y) (Some p)) = Ok (VStr s).
Proof.
  intros Htype Htext. unfold render, getitem. rewrite Htype, Htext. cbn.
  destruct (String.eqb to_style "mla"); [destruct (truthy p); by eexists|].
  destruct (String.eqb to_style "apa"); [destruct (truthy p); by eexists|].
  destruct (String.eqb to_style "chicago"); [|by eexists].
  destruct (String.eqb type_name "in_text"); [|by eexists].
  destruct (truthy p); by eexists.
Qed.

Lemma search_page_made (p : pattern) (type_name sentence : string)
    (m : Re.match_) :
  exists page : option string,
    search_page p (make_citation type_name sentence m) = Ok page.
Proof.
  unfold search_page, getitem.
  rewrite (proj1 (proj2 (made_citation_fields type_name sentence m))). cbn.
  destruct (Re.search _ _ _); by eexists.
Qed.

Lemma group_item_made (type_name sentence : string) (m : Re.match_)
    (i : nat) (x : option string) :
  Re.groups m !! i = Some x ->
  group_item (make_citation type_name sentence m) i = Ok x.
Proof.
  intros Hx. unfold group_item, getitem.
  rewrite (proj1 (made_citation_fields type_name sentence m)). cbn.
  by rewrite Hx.
Qed.

(** X12: every citation [extract_citations] records for a style can be
    converted from that style to any target, known or not:
    [convert_citation] raises nothing and returns a string. *)
Theorem recorded_citations_convert
    (sent_tokenize : string -> list string) (text style to_style : string)
    (cs : list citation) (c : citation) :
  od_get style (citations (extract_citations sent_tokenize text)) = Some cs ->
  In c cs ->
  exists s : string, convert_citation c style to_style = Ok (VStr s).
Proof.
  intros Hcs Hc. apply citations_of_style in Hcs as (_ & -> & _).
  apply in_flat_map in Hc as (sentence & _ & Hc).
  unfold emitted_styles in Hc.
  apply in_flat_map in Hc as ([style' patterns] & Hcat & Hc); simpl in Hc.
  destruct (String.eqb_spec style style') as [<-|]; [|done].
  apply in_flat_map in Hc as ([type_name p] & Hpat & Hc); simpl in Hc.
  apply in_map_iff in Hc as (m & <- & Hm).
  pose proof (finditer_groups p sentence m Hm) as Hlen.
  pose proof (made_citation_fields type_name sentence m) as (_ & Htext & Htype).
  cbv zeta in Htext, Htype.
  unfold convert_citation, extract_fields.
  simpl in Hcat.
  destruct Hcat as [[= <- <-]|[[= <- <-]|[[= <- <-]|[]]]];
    simpl in Hpat; destruct Hpat as [[= <- <-]|[[= <- <-]|[]]];
    simpl in Hlen;
    destruct (Re.groups m) as [|g0 [|g1 [|g2 [|g3 gs]]]] eqn:Hgroups;
    try discriminate Hlen;
    cbn [String.eqb Ascii.eqb Bool.eqb];
    try rewrite Htype; cbn [eq_str String.eqb Ascii.eqb Bool.eqb mbind
                              result_bind];
    repeat (erewrite group_item_made by (rewrite Hgroups; reflexivity);
            cbn [mbind result_bind]);
    try (match goal with
         | |- context [search_page ?q (make_citation ?ty ?st ?mt)] =>
             destruct (search_page_made q ty st mt) as [pg Hpg]
         end);
    try (rewrite Hpg; cbn [mbind result_bind]);
    eapply render_returns_text; eassumption.
Qed.

Lemma recorded_citations_convert_witness :
  let m := Re.Match "See (Smith 45)." 4 14
             [Some (5, 10); Some (11, 13)]%nat in
  let c := make_citation "in_text" "See (Smith 45)." m in
  In m (finditer (Pattern 2 mla_in_text) "See (Smith 45).")
  /\ exists s : string, convert_citation c "mla" "apa" = Ok (VStr s).
Proof.
  intros m c.
  assert (In m (finditer (Pattern 2 mla_in_text) "See (Smith 45).")) as Hm
    by (vm_compute; left; reflexivity).
  split; [exact Hm|].
  assert (In c (flat_map (emitted_styles citation_patterns "mla")
                  (whole_text "See (Smith 45)."))) as Hc.
  { unfold whole_text, emitted_styles, emitted_patterns.
    cbn [flat_map citation_patterns fst snd String.eqb Ascii.eqb Bool.eqb].
    rewrite !app_nil_r. apply in_or_app. left. apply in_map. exact Hm. }
  destruct (citations_of_style_known whole_text "See (Smith 45)." "mla"
              (or_introl eq_refl)) as [Hcs _].
  exact (recorded_citations_convert whole_text "See (Smith 45)." "mla" "apa"
           _ c Hcs Hc).
Defined.

(** X13: the two records of one MLA match convert to Chicago
    differently: the one recorded as parenthetical gives the footnote
    placeholder, the one recorded as in_text gives the author followed by
    [(n.d., page)]. *)
Theorem mla_twins_convert_differently
    (sentence : string) (m : Re.match_) :
  In m (finditer (Pattern 2 mla_in_text) sentence) ->
  exists author page : option string,
    Re.groups m = [author; page]
    /\ convert_citation (make_citation "parenthetical" sentence m)
         "mla" "chicago"
       = Ok (VStr footnote_placeholder)
    /\ convert_citation (make_citation "in_text" sentence m) "mla" "chicago"
       = Ok (VStr (if truthy page
                   then fmt author +:+ " (n.d., " +:+ fmt page +:+ ")"
                   else fmt author +:+ " (n.d.)")).
Proof.
  intros Hm. pose proof (finditer_groups _ sentence m Hm) as Hlen.
  simpl in Hlen.
  destruct (Re.groups m) as [|author [|page [|g2 gs]]] eqn:Hgroups;
    try discriminate Hlen.
  exists author, page. split; [done|].
  unfold convert_citation, extract_fields.
  cbn [String.eqb Ascii.eqb Bool.eqb].
  rewrite !(group_item_made _ sentence m 0 author) by by rewrite Hgroups.
  rewrite !(group_item_made _ sentence m 1 page) by by rewrite Hgroups.
  split; [reflexivity|]. cbn. by destruct (truthy page).
Qed.

Lemma mla_twins_convert_differently_witness :
  let m := Re.Match "See (Smith 45)." 4 14
             [Some (5, 10); Some (11, 13)]%nat in
  In m (finditer (Pattern 2 mla_in_text) "See (Smith 45).")
  /\ exists author page : option string,
       Re.groups m = [author; page]
       /\ convert_citation (make_citation "parenthetical" "See (Smith 45)." m)
            "mla" "chicago"
          = Ok (VStr footnote_placeholder)
       /\ convert_citation (make_citation "in_text" "See (Smith 45)." m)
            "mla" "chicago"
          = Ok (VStr (if truthy page
                      then fmt author +:+ " (n.d., " +:+ fmt page +:+ ")"
                      else fmt author +:+ " (n.d.)")).
Proof.
  intros m.
  assert (In m (finditer (Pattern 2 mla_in_text) "See (Smith 45).")) as Hin
    by (vm_compute; left; reflexivity).
  split; [exact Hin|].
  exact (mla_twins_convert_differently "See (Smith 45)." m Hin).
Defined.

(** X19: with a source style that is none of mla, apa and chicago,
    [convert_citation] to MLA or APA raises [UnboundLocalError] for the
    variable page; to Chicago it does so for an in_text citation and
    returns the footnote placeholder for any other kind. *)
Theorem unknown_source_style_fails_on_page
    (c : citation) (from_style to_style : string) :
  ~ known_style from_style ->
  (to_style = "mla" \/ to_style = "apa" ->
   convert_citation c from_style to_style = Raise (UnboundLocalError "page"))
  /\ (to_style = "chicago" ->
      convert_citation c from_style to_style
      = match c !! "type" with
        | None => Raise (KeyError "type")
        | Some type_ =>
            if eq_str type_ "in_text"
            then Raise (UnboundLocalError "page")
            else Ok (VStr footnote_placeholder)
        end).
Proof.
  intros Hfrom. unfold convert_citation.
  rewrite (extract_fields_unknown c from_style Hfrom). cbn. split.
  - by intros [-> | ->].
  - intros ->. unfold render, getitem. cbn.
    destruct (c !! "type") as [type_|]; [|done]. cbn.
    by destruct (eq_str type_ "in_text").
Qed.

Lemma unknown_source_style_fails_on_page_witness :
  ~ known_style "harvard"
  /\ convert_citation smith_45 "harvard" "mla"
     = Raise (UnboundLocalError "page")
  /\ convert_citation smith_45 "harvard" "chicago"
     = Ok (VStr footnote_placeholder).
Proof.
  assert (~ known_style "harvard") as Hfrom
    by (intros [H|[H|H]]; discriminate H).
  split; [exact Hfrom|].
  destruct (unknown_source_style_fails_on_page smith_45 "harvard" "mla" Hfrom)
    as [Hmla _].
  destruct (unknown_source_style_fails_on_page smith_45 "harvard" "chicago"
              Hfrom) as [_ Hchicago].
  split; [apply Hmla; by left|]. by rewrite Hchicago.
Defined.

End ConverterFacts.

Section DetectorFacts.

Import CitationProcessor.

(** X10: the citations [extract_citations] records for a style are,
    sentence after sentence in the order of the sentence splitter, the
    matches of the first pattern of the style followed by the matches of
    its second pattern, so they are not ordered by position; no other key
    is recorded; and the count of a style is the number of its
    citations. *)
Theorem citations_follow_the_loops
    (sent_tokenize : string -> list string) (text : string) :
  let r := extract_citations sent_tokenize text in
  let found := fun (kind : string) (p : pattern) (s : string) =>
    map (make_citation kind s) (finditer p s) in
  od_get "mla" (citations r)
  = Some (flat_map
            (fun s => found "in_text" (Pattern 2 mla_in_text) s
                      ++ found "parenthetical" (Pattern 2 mla_parenthetical) s)
            (sent_tokenize text))
  /\ od_get "apa" (citations r)
     = Some (flat_map
               (fun s => found "in_text" (Pattern 2 apa_in_text) s
                         ++ found "parenthetical"
                              (Pattern 2 apa_parenthetical) s)
               (sent_tokenize text))
  /\ od_get "chicago" (citations r)
     = Some (flat_map
               (fun s => found "in_text" (Pattern 2 chicago_in_text) s
                         ++ found "footnote" (Pattern 3 chicago_footnote) s)
               (sent_tokenize text))
  /\ (forall s : string,
        ~ known_style s ->
        od_get s (citations r) = None /\ od_get s (style_counts r) = None)
  /\ forall (s : string) (cs : list citation),
       od_get s (citations r) = Some cs ->
       od_get s (style_counts r) = Some (Z.of_nat (List.length cs)).
Proof.
  intros r found.
  assert (forall s, In s ["mla"; "apa"; "chicago"] ->
            forall f,
              (forall x, emitted_styles citation_patterns s x = f x) ->
              od_get s (citations r) = Some (flat_map f (sent_tokenize text)))
    as Hstyle.
  { intros s Hs f Hf.
    pose proof (proj1 (citations_of_style_known sent_tokenize text s Hs)) as Hr.
    cbv zeta in Hr. fold r in Hr. rewrite Hr.
    f_equal. by apply flat_map_ext. }
  split; [|split; [|split; [|split]]].
  - apply Hstyle; [simpl; auto|]. intros x.
    unfold emitted_styles, emitted_patterns. cbn. by rewrite !app_nil_r.
  - apply Hstyle; [simpl; auto|]. intros x.
    unfold emitted_styles, emitted_patterns. cbn. by rewrite !app_nil_r.
  - apply Hstyle; [simpl; auto|]. intros x.
    unfold emitted_styles, emitted_patterns. cbn. by rewrite !app_nil_r.
  - intros s Hs.
    pose proof (scan_sentences_keys (sent_tokenize text) initial_tally)
      as [Hk1 Hk2].
    unfold r, extract_citations; simpl.
    destruct (t_counts _) as [|[k1 a] [|[k2 b] [|[k3 c] [|]]]]; try done.
    destruct (t_citations _) as [|[k1' a'] [|[k2' b'] [|[k3' c'] [|]]]];
      try done.
    simpl in Hk1, Hk2. injection Hk1 as -> -> ->. injection Hk2 as -> -> ->.
    simpl.
    destruct (String.eqb_spec s "mla") as [->|_]; [destruct Hs; by left|].
    destruct (String.eqb_spec s "apa") as [->|_];
      [destruct Hs; by right; left|].
    destruct (String.eqb_spec s "chicago") as [->|_];
      [destruct Hs; by right; right|].
    done.
  - intros s cs Hcs. by apply citations_of_style in Hcs as (_ & _ & ?).
Qed.

(** X11: the dominant style of [extract_citations] is [None] exactly
    when no citation is recorded for any style; otherwise it is a style
    with at least one citation and no style has more. *)
Theorem dominant_style_has_most_citations
    (sent_tokenize : string -> list string) (text : string) :
  let r := extract_citations sent_tokenize text in
  (dominant_style r = None <->
   forall (s : string) (cs : list citation),
     od_get s (citations r) = Some cs -> cs = [])
  /\ forall s : string,
       dominant_style r = Some s ->
       exists cs : list citation,
         od_get s (citations r) = Some cs /\ cs <> []
         /\ forall (s' : string) (cs' : list citation),
              od_get s' (citations r) = Some cs' ->
              (List.length cs' <= List.length cs)%nat.
Proof.
  intros r.
  pose proof (citations_of_style_known sent_tokenize text "mla") as [Hm Hmc];
    [simpl; auto|].
  pose proof (citations_of_style_known sent_tokenize text "apa") as [Ha Hac];
    [simpl; auto|].
  pose proof (citations_of_style_known sent_tokenize text "chicago") as [Hc Hcc];
    [simpl; auto|].
  fold r in Hm, Hmc, Ha, Hac, Hc, Hcc.
  set (ms := flat_map _ _) in Hm, Hmc. set (as_ := flat_map _ _) in Ha, Hac.
  set (cs_ := flat_map _ _) in Hc, Hcc.
  assert (forall s cs, od_get s (citations r) = Some cs ->
            (s = "mla" /\ cs = ms) \/ (s = "apa" /\ cs = as_)
            \/ (s = "chicago" /\ cs = cs_)) as Hany.
  { intros s cs Hcs.
    destruct (citations_of_style sent_tokenize text s cs Hcs)
      as ([<-|[<-|[<-|[]]]] & _ & _); fold r in Hcs.
    - left. split; [done|]. congruence.
    - right; left. split; [done|]. congruence.
    - right; right. split; [done|]. congruence. }
  pose proof (scan_sentences_keys (sent_tokenize text) initial_tally)
    as [Hk _].
  assert (dominant_style r = vote (style_counts r)) as Hdom by reflexivity.
  assert (map fst (style_counts r) = ["mla"; "apa"; "chicago"]) as Hkeys
    by exact Hk.
  clear Hk. clearbody r ms as_ cs_.
  destruct (style_counts r) as [|[k1 a] [|[k2 b] [|[k3 c] [|]]]]; try done.
  simpl in Hkeys. injection Hkeys as -> -> ->.
  cbn in Hmc, Hac, Hcc. injection Hmc as ->. injection Hac as ->.
  injection Hcc as ->.
  rewrite Hdom. clear Hdom. unfold vote. cbn -[Z.ltb Z.eqb Z.of_nat].
  repeat match goal with
         | |- context [Z.ltb (Z.of_nat (List.length ?x))
                             (Z.of_nat (List.length ?y))] =>
             destruct (Z.ltb_spec (Z.of_nat (List.length x))
                                  (Z.of_nat (List.length y)));
             cbn -[Z.ltb Z.eqb Z.of_nat]
         end;
  repeat match goal with
         | |- context [Z.eqb ?x 0] =>
             destruct (Z.eqb_spec x 0); cbn -[Z.ltb Z.eqb Z.of_nat]
         end.
  all: split;
    [split;
     [intros Hnone; try discriminate Hnone; intros s cs Hcs;
      destruct (Hany s cs Hcs) as [[_ ->]|[[_ ->]|[_ ->]]];
      apply length_zero_iff_nil; lia
     |intros Hall; try reflexivity;
      pose proof (Hall _ _ Hm) as Hm0; pose proof (Hall _ _ Ha) as Ha0;
      pose proof (Hall _ _ Hc) as Hc0; subst; simpl in *; lia]
    |intros s [= <-];
     first [exists ms; split; [exact Hm|]
           |exists as_; split; [exact Ha|]
           |exists cs_; split; [exact Hc|]];
     (split; [intros ->; simpl in *; lia|]);
     intros s' cs' Hcs';
     destruct (Hany s' cs' Hcs') as [[_ ->]|[[_ ->]|[_ ->]]]; lia].
Qed.

Lemma dominant_style_has_most_citations_witness :
  let r := extract_citations whole_text
             "Smith (2020) agrees (Jones, 2019), as shown (Smith 45)." in
  dominant_style r = Some "mla"
  /\ exists cs : list citation,
       od_get "mla" (citations r) = Some cs /\ cs <> []
       /\ forall (s' : string) (cs' : list citation),
            od_get s' (citations r) = Some cs' ->
            (List.length cs' <= List.length cs)%nat.
Proof.
  intros r.
  assert (dominant_style r = Some "mla") as Hstyle
    by (vm_compute; reflexivity).
  split; [exact Hstyle|].
  exact (proj2 (dominant_style_has_most_citations whole_text
                  "Smith (2020) agrees (Jones, 2019), as shown (Smith 45).")
           "mla" Hstyle).
Defined.

(** X17: the groups of every recorded citation are a tuple of two
    items, and of three for a Chicago footnote, the only kind recorded as
    footnote. *)
Theorem recorded_groups_have_pattern_arity
    (sent_tokenize : string -> list string) (text style : string)
    (cs : list citation) (c : citation) :
  od_get style (citations (extract_citations sent_tokenize text)) = Some cs ->
  In c cs ->
  exists (items : list (option string)) (kind : string),
    c !! "groups" = Some (VTuple items)
    /\ c !! "type" = Some (VStr kind)
    /\ List.length items = (if String.eqb kind "footnote" then 3 else 2)%nat
    /\ (kind = "footnote" -> style = "chicago").
Proof.
  intros Hcs Hc. apply citations_of_style in Hcs as (_ & -> & _).
  apply in_flat_map in Hc as (sentence & _ & Hc).
  unfold emitted_styles in Hc.
  apply in_flat_map in Hc as ([style' patterns] & Hcat & Hc); simpl in Hc.
  destruct (String.eqb_spec style style') as [<-|]; [|done].
  apply in_flat_map in Hc as ([type_name p] & Hpat & Hc); simpl in Hc.
  apply in_map_iff in Hc as (m & <- & Hm).
  pose proof (finditer_groups p sentence m Hm) as Hlen.
  exists (Re.groups m), type_name. split; [done|]. split; [done|].
  simpl in Hcat.
  destruct Hcat as [[= <- <-]|[[= <- <-]|[[= <- <-]|[]]]];
    simpl in Hpat; destruct Hpat as [[= <- <-]|[[= <- <-]|[]]];
    simpl in Hlen; split; done.
Qed.

Lemma recorded_groups_have_pattern_arity_witness :
  let m := Re.Match "1. Smith, Title, 45" 0 19
             [Some (0, 1); Some (3, 8); Some (17, 19)]%nat in
  let c := make_citation "footnote" "1. Smith, Title, 45" m in
  In m (finditer (Pattern 3 chicago_footnote) "1. Smith, Title, 45")
  /\ exists (items : list (option string)) (kind : string),
       c !! "groups" = Some (VTuple items)
       /\ c !! "type" = Some (VStr kind)
       /\ List.length items = (if String.eqb kind "footnote" then 3 else 2)%nat
       /\ (kind = "footnote" -> "chicago" = "chicago").
Proof.
  intros m c.
  assert (In m (finditer (Pattern 3 chicago_footnote) "1. Smith, Title, 45"))
    as Hm by (vm_compute; left; reflexivity).
  split; [exact Hm|].
  assert (In c (flat_map (emitted_styles citation_patterns "chicago")
                  (whole_text "1. Smith, Title, 45"))) as Hc.
  { unfold whole_text, emitted_styles, emitted_patterns.
    cbn [flat_map citation_patterns fst snd String.eqb Ascii.eqb Bool.eqb].
    rewrite !app_nil_r. apply in_or_app. right. apply in_map. exact Hm. }
  exact (recorded_groups_have_pattern_arity whole_text "1. Smith, Title, 45"
           "chicago" _ c
           (proj1 (citations_of_style_known whole_text "1. Smith, Title, 45"
                     "chicago" (or_intror (or_intror (or_introl eq_refl)))))
           Hc).
Defined.

End DetectorFacts.

Section BibliographyFacts.

Import CitationProcessor.

(** X14: for a style that is none of mla, apa and chicago (the
    comparison is case-sensitive), [format_bibliography_entry] writes
    author, title and year only, with their defaults, whatever else the
    entry holds. *)
Theorem unknown_style_formats_three_fields (e : entry) (style : string) :
  ~ known_style style ->
  format_bibliography_entry e style
  = default "Unknown Author" (e !! "author") +:+ ". "
    +:+ default "Untitled" (e !! "title") +:+ ". "
    +:+ default "n.d." (e !! "year") +:+ ".".
Proof.
  intros Hstyle. unfold format_bibliography_entry.
  destruct (String.eqb_spec style "mla") as [->|_];
    [destruct Hstyle; by left|].
  destruct (String.eqb_spec style "apa") as [->|_];
    [destruct Hstyle; by right; left|].
  destruct (String.eqb_spec style "chicago") as [->|_];
    [destruct Hstyle; by right; right|].
  done.
Qed.

Lemma unknown_style_formats_three_fields_witness :
  ~ known_style "MLA"
  /\ format_bibliography_entry
       (<["journal" := "Nature"]> (<["author" := "Doe"]> ∅)) "MLA"
     = "Doe. Untitled. n.d..".
Proof.
  assert (~ known_style "MLA") as Hstyle
    by (intros [H|[H|H]]; discriminate H).
  split; [exact Hstyle|].
  rewrite (unknown_style_formats_three_fields _ "MLA" Hstyle).
  vm_compute. reflexivity.
Defined.

(** X15: for an entry without journal and without url,
    [format_bibliography_entry] gives the same text in MLA and in Chicago:
    author, title, location, publisher and year. *)
Theorem mla_and_chicago_books_agree (e : entry) :
  e !! "journal" = None -> e !! "url" = None ->
  format_bibliography_entry e "mla" = format_bibliography_entry e "chicago"
  /\ format_bibliography_entry e "mla"
     = default "Unknown Author" (e !! "author") +:+ ". "
       +:+ default "Untitled" (e !! "title") +:+ ". "
       +:+ default EmptyString (e !! "location") +:+ ": "
       +:+ default EmptyString (e !! "publisher") +:+ ", "
       +:+ default "n.d." (e !! "year") +:+ ".".
Proof.
  intros Hjournal Hurl. unfold format_bibliography_entry, has_key.
  rewrite Hjournal, Hurl. split; reflexivity.
Qed.

Lemma mla_and_chicago_books_agree_witness :
  format_bibliography_entry
    (<["publisher" := "Penguin"]> (<["author" := "Doe"]> ∅)) "mla"
  = format_bibliography_entry
      (<["publisher" := "Penguin"]> (<["author" := "Doe"]> ∅)) "chicago".
Proof.
  exact (proj1 (mla_and_chicago_books_agree
                  (<["publisher" := "Penguin"]> (<["author" := "Doe"]> ∅))
                  eq_refl eq_refl)).
Defined.

(** The journal template does not read the fields of the other two. *)
Lemma parse_entry_keys (entry_text key : string) :
  key <> "author" -> key <> "year" -> key <> "title" -> key <> "raw" ->
  parse_entry entry_text !! key = None.
Proof.
  intros Ha Hy Ht Hr. unfold parse_entry.
  rewrite lookup_insert_ne by done.
  repeat match goal with
         | |- context [match ?x with _ => _ end] =>
             lazymatch x with
             | context [match _ with _ => _ end] => fail
             | _ => destruct x
             end
         end;
    rewrite ?lookup_insert_ne by done; apply lookup_empty.
Qed.

(** X16: an entry of [identify_bibliography] has no other keys than
    author, year, title and raw, so [format_bibliography_entry] always
    formats it as a book with an empty publisher and location: the MLA
    and Chicago texts contain [. : , ] and the APA text ends in [. .]. *)
Theorem parsed_entries_format_as_books (text : string) (e : entry) :
  In e (identify_bibliography text) ->
  let author := default "Unknown Author" (e !! "author") in
  let title := default "Untitled" (e !! "title") in
  let year := default "n.d." (e !! "year") in
  dom e ⊆ {["author"; "year"; "title"; "raw"]}
  /\ format_bibliography_entry e "mla"
     = author +:+ ". " +:+ title +:+ ". : , " +:+ year +:+ "."
  /\ format_bibliography_entry e "apa"
     = author +:+ ". (" +:+ year +:+ "). " +:+ title +:+ ". ."
  /\ format_bibliography_entry e "chicago"
     = author +:+ ". " +:+ title +:+ ". : , " +:+ year +:+ ".".
Proof.
  unfold identify_bibliography.
  destruct (locate_section text) as [bib_section|]; [|done].
  intros Hin. apply in_map_iff in Hin as (entry_text & <- & _).
  assert (forall key, key <> "author" -> key <> "year" -> key <> "title" ->
                      key <> "raw" -> parse_entry entry_text !! key = None)
    as Hkeys by (intros; by apply parse_entry_keys).
  split.
  - intros key Hkey. apply elem_of_dom in Hkey.
    rewrite !elem_of_union, !elem_of_singleton.
    destruct (String.eqb_spec key "author") as [->|?]; [tauto|].
    destruct (String.eqb_spec key "year") as [->|?]; [tauto|].
    destruct (String.eqb_spec key "title") as [->|?]; [tauto|].
    destruct (String.eqb_spec key "raw") as [->|?]; [tauto|].
    rewrite Hkeys in Hkey by done. by destruct Hkey.
  - unfold format_bibliography_entry, has_key.
    rewrite (Hkeys "journal"), (Hkeys "url"), (Hkeys "publisher"),
      (Hkeys "location") by done.
    repeat split; reflexivity.
Qed.

Lemma parsed_entries_format_as_books_witness :
  let e := parse_entry "Smith, John. The Title. 2020." in
  In e (identify_bibliography two_references)
  /\ format_bibliography_entry e "apa"
     = default "Unknown Author" (e !! "author") +:+ ". ("
       +:+ default "n.d." (e !! "year") +:+ "). "
       +:+ default "Untitled" (e !! "title") +:+ ". .".
Proof.
  intros e.
  assert (In e (identify_bibliography two_references)) as Hin.
  { unfold identify_bibliography.
    assert (locate_section two_references
            = Some ("Smith, John. The Title. 2020." +:+ Py.nl
                    +:+ "Doe, Jane. Other Work. 2019.")) as ->
      by (vm_compute; reflexivity).
    assert (entry_texts ("Smith, John. The Title. 2020." +:+ Py.nl
                         +:+ "Doe, Jane. Other Work. 2019.")
            = ["Smith, John. The Title. 2020.";
               "Doe, Jane. Other Work. 2019."]) as ->
      by (vm_compute; reflexivity).
    left. reflexivity. }
  split; [exact Hin|].
  exact (proj1 (proj2 (proj2 (parsed_entries_format_as_books
                                two_references e Hin)))).
Defined.

End BibliographyFacts.

(* ================================================================== *)
(** ** Further properties: the document analyzer *)
(* ================================================================== *)

Section SectionFacts.

Import DocumentAnalyzer.

Lemma scan_heading_inv (acc : list section_t * Z) (m : Re.match_) :
  sections_inv acc -> sections_inv (scan_heading acc m).
Proof.
  destruct acc as [sections last_pos]. intros (Hspaced & Hlast & Hall).
  unfold scan_heading. simpl in *.
  set (heading_pos := Z.of_nat (Re.m_start m)).
  set (new := Section_ _ heading_pos 1).
  destruct ((heading_pos - last_pos <? 100)
            && match sections with [] => false | _ :: _ => true end)
    eqn:Hskip; [done|].
  apply andb_false_iff in Hskip.
  repeat split; simpl.
  - intros i a b Ha Hb.
    destruct (decide (S i < List.length sections)%nat) as [Hin|Hout].
    + rewrite lookup_app_l in Ha by lia. rewrite lookup_app_l in Hb by done.
      by apply (Hspaced i).
    + destruct (decide (S i = List.length sections)) as [Heq|Hne].
      * rewrite lookup_app_l in Ha by lia.
        rewrite lookup_app_r, <- Heq, Nat.sub_diag in Hb by lia.
        injection Hb as <-. simpl.
        assert (last sections = Some a) as Hla.
        { rewrite last_lookup, <- Heq. done. }
        apply Hlast in Hla. destruct Hskip as [Hfar|Hempty].
        -- apply Z.ltb_ge in Hfar. lia.
        -- destruct sections; [done|discriminate Hempty].
      * apply lookup_lt_Some in Hb. rewrite length_app in Hb. simpl in Hb.
        lia.
  - intros s. rewrite last_snoc. by intros [= <-].
  - apply Forall_app. split; [done|]. apply Forall_singleton.
    split; [done|]. simpl. unfold heading_pos. lia.
Qed.

(** X18: the sections [_identify_sections] finds with its heading
    pattern are at least 100 characters apart from one to the next, have
    level 1 and a position that is not negative; and when the pattern
    finds a section, the result with a sentence model is the same. *)
Theorem sections_keep_their_distance (text : string) :
  let sections := _identify_sections false text in
  (forall (i : nat) (a b : section_t),
     sections !! i = Some a -> sections !! S i = Some b ->
     position a + 100 <= position b)
  /\ Forall (fun s => level s = 1 /\ 0 <= position s) sections
  /\ (sections <> [] ->
      _identify_sections true text = sections).
Proof.
  intros sections.
  assert (sections = heading_sections text) as -> by reflexivity.
  assert (sections_inv (fold_left scan_heading
                          (Re.finditer 1 heading_pattern text) ([], 0)))
    as (Hspaced & _ & Hall).
  { apply fold_left_invariant; [|intros; by apply scan_heading_inv].
    repeat split; simpl; [intros i a b Ha; by destruct i|done|constructor]. }
  split; [exact Hspaced|]. split; [exact Hall|].
  intros Hne. unfold _identify_sections.
  destruct (heading_sections text); [done|reflexivity].
Qed.

Lemma sections_keep_their_distance_witness :
  _identify_sections false two_headings
  = [Section_ "Introduction" 0 1; Section_ "Methods" 137 1]
  /\ 0 + 100 <= 137.
Proof.
  assert (_identify_sections false two_headings
          = [Section_ "Introduction" 0 1; Section_ "Methods" 137 1]) as Hs
    by (vm_compute; reflexivity).
  split; [exact Hs|].
  apply (proj1 (sections_keep_their_distance two_headings) 0%nat
           (Section_ "Introduction" 0 1) (Section_ "Methods" 137 1));
    rewrite Hs; reflexivity.
Defined.

End SectionFacts.
